(** * Lithium-Validation: the scoring engine of [core/validation_engine.py]

    A shallow embedding of [OutputValidator] and of the parts of Python it
    relies on, followed by the properties of the engine.

    - Python [float] is IEEE-754 binary64: Rocq's primitive [float], whose
      operations are the same ones (round to nearest, ties to even).
    - Python [str] is a sequence of code points.  A text is a [string] whose
      characters are read as the code points U+0000..U+00FF; the character
      classes of [re] ([\d], [\w], [\s], [\b], [IGNORECASE]) and [str.lower]
      are the ones CPython uses on that range.
    - Python [int] is [Z]; [len] is a [nat].
    - Operations that can raise ([KeyError] of a dict subscript, [IndexError]
      of a list subscript) live in the error monad [result]. *)

From Stdlib Require Import Floats ZArith List Ascii String Bool Lia.
From Stdlib Require Import DecimalString.
From Stdlib Require Uint63.
Import ListNotations.

Set Warnings "-inexact-float".

Local Open Scope string_scope.
Local Open Scope list_scope.

(* ================================================================== *)
(** * Python values and built-ins *)
(* ================================================================== *)

Module Py.

(** ** Exceptions *)

Inductive exn : Type :=
| KeyError (key : string)
| IndexError.

Inductive result (A : Type) : Type :=
| Ok (a : A)
| Raise (e : exn).

Arguments Ok {A} a.
Arguments Raise {A} e.

Definition bind {A B : Type} (c : result A) (k : A -> result B) : result B :=
  match c with
  | Ok a => k a
  | Raise e => Raise e
  end.

(** [for x in l: body], the loop state threaded through the body. *)
Fixpoint for_each {A S : Type} (l : list A) (body : S -> A -> result S) (s : S)
  : result S :=
  match l with
  | [] => Ok s
  | x :: l' => bind (body s x) (for_each l' body)
  end.

(** [l[i]] for [i >= 0]. *)
Definition subscript {A : Type} (l : list A) (i : nat) : result A :=
  match nth_error l i with
  | Some a => Ok a
  | None => Raise IndexError
  end.

(** [d[key]] on a dict literal, kept as its list of items. *)
Fixpoint getitem {V : Type} (d : list (string * V)) (key : string) : result V :=
  match d with
  | [] => Raise (KeyError key)
  | (k, v) :: d' => if String.eqb k key then Ok v else getitem d' key
  end.

(** [d[key] = v]. *)
Fixpoint setitem {V : Type} (d : list (string * V)) (key : string) (v : V)
  : list (string * V) :=
  match d with
  | [] => [(key, v)]
  | (k, v') :: d' =>
      if String.eqb k key then (k, v) :: d' else (k, v') :: setitem d' key v
  end.

(** [d.get(key, default)] on a configuration entry. *)
Definition get {V : Type} (entry : option V) (default : V) : V :=
  match entry with
  | Some v => v
  | None => default
  end.

(** Truth value of a list: [if matches:]. *)
Definition truthy {A : Type} (l : list A) : bool :=
  match l with
  | [] => false
  | _ :: _ => true
  end.

(** [l[:k]]: a negative bound counts from the end. *)
Definition slice_to {A : Type} (l : list A) (k : Z) : list A :=
  if (0 <=? k)%Z then firstn (Z.to_nat k) l
  else firstn (Z.to_nat (Z.of_nat (List.length l) + k)) l.

(** [str(n)] for an int. *)
Definition str_of_int (n : Z) : string :=
  NilZero.string_of_int (Z.to_int n).

(** ** Floats *)

Local Open Scope float_scope.

(** [min(a, b)] keeps [a] unless [b < a]; [max(a, b)] keeps [a] unless
    [b > a] (CPython's [min_max] loop). *)
Definition min (a b : float) : float := if b <? a then b else a.
Definition max (a b : float) : float := if a <? b then b else a.

(** [float(n)] for [n = len(...)]: a length fits a machine word, where
    [of_uint63] is the correctly rounded conversion. *)
Definition float_of_len (n : nat) : float :=
  of_uint63 (Uint63.of_Z (Z.of_nat n)).

(** [a >= b]. *)
Definition ge (a b : float) : bool := b <=? a.

(** ** [str] methods *)

Definition code (c : ascii) : N := N_of_ascii c.

Definition between (lo hi : N) (c : ascii) : bool :=
  ((lo <=? code c) && (code c <=? hi))%N.

(** [str.lower] on one code point below U+0100: A-Z and the capital
    letters U+00C0..U+00DE (all but the multiplication sign U+00D7).
    Beyond that range [str.lower] can change the length of a text (U+0130),
    which is outside this model. *)
Definition lower_char (c : ascii) : ascii :=
  if between 65 90 c || between 192 214 c || between 216 222 c
  then ascii_of_N (code c + 32)
  else c.

Fixpoint lower (s : string) : string :=
  match s with
  | EmptyString => EmptyString
  | String c s' => String (lower_char c) (lower s')
  end.

(** [needle in hay]. *)
Fixpoint contains (needle hay : string) : bool :=
  prefix needle hay ||
  match hay with
  | EmptyString => false
  | String _ hay' => contains needle hay'
  end.

End Py.

Notation "x <- c ;; k" := (Py.bind c (fun x => k))
  (at level 61, c at next level, right associativity).
Notation "' p <- c ;; k" := (Py.bind c (fun p => k))
  (at level 61, p pattern, c at next level, right associativity).

(* ================================================================== *)
(** * The fragment of [re] the engine uses *)
(* ================================================================== *)

Module Re.

Import Py.

(** ** Character classes *)

(** [\d]: Unicode decimal digits. *)
Definition is_digit (c : ascii) : bool := between 48 57 c.

(** [\w]: alphanumeric or underscore; below U+0100 that is the ASCII
    letters and digits, [_], the letters of Latin-1 and its superscript
    digits and vulgar fractions. *)
Definition is_word (c : ascii) : bool :=
  between 48 57 c || between 65 90 c || between 95 95 c || between 97 122 c
  || between 170 170 c || between 178 179 c || between 181 181 c
  || between 185 186 c || between 188 190 c || between 192 214 c
  || between 216 246 c || between 248 255 c.

(** [\s]: Unicode white space. *)
Definition is_space (c : ascii) : bool :=
  between 9 13 c || between 28 32 c || between 133 133 c || between 160 160 c.

Definition is_char (a : ascii) (c : ascii) : bool := Ascii.eqb a c.

(** A literal under [IGNORECASE]. *)
Definition is_char_i (a : ascii) (c : ascii) : bool :=
  Ascii.eqb (lower_char a) (lower_char c).

Definition neg (p : ascii -> bool) (c : ascii) : bool := negb (p c).

Definition any_of (ps : list (ascii -> bool)) (c : ascii) : bool :=
  existsb (fun p => p c) ps.

(** ** Patterns

    Every pattern of the engine is a sequence of items, each a single
    character class, a greedy repetition [p{lo,}] of one, or [\b]. *)

Inductive atom : Type :=
| Chr (p : ascii -> bool)
| Rep (lo : nat) (p : ascii -> bool)
| WordB.

Definition regex : Type := list atom.

(** Flags given at the call; a pattern is compiled under them. *)
Inductive flags : Type :=
| NOFLAG
| IGNORECASE.

Definition pattern : Type := flags -> regex.

(** One literal character. *)
Definition chr (f : flags) (a : ascii) : atom :=
  match f with
  | IGNORECASE => Chr (is_char_i a)
  | NOFLAG => Chr (is_char a)
  end.

(** The literal text [s]. *)
Definition lit (s : string) : pattern :=
  fun f => map (chr f) (list_ascii_of_string s).

(** A character set [[...]], [[^...]] or class, once and repeated. *)
Definition set (p : ascii -> bool) : pattern := fun _ => [Chr p].
Definition plus (p : ascii -> bool) : pattern := fun _ => [Rep 1 p].
Definition star (p : ascii -> bool) : pattern := fun _ => [Rep 0 p].

(** [\b]. *)
Definition wordb : pattern := fun _ => [WordB].

(** Concatenation of pattern pieces. *)
Definition seq (ps : list pattern) : pattern :=
  fun f => List.concat (map (fun p => p f) ps).

(** ** Matching *)

Definition word_before (prev : option ascii) : bool :=
  match prev with
  | Some c => is_word c
  | None => false
  end.

Definition word_after (s : string) : bool :=
  match s with
  | String c _ => is_word c
  | EmptyString => false
  end.

(** Greedy repetition with backtracking: take as many characters as
    possible and give them back one at a time until the continuation [k]
    accepts.  [prev] is the character before the current position. *)
Fixpoint rep (k : option ascii -> string -> option nat) (p : ascii -> bool)
    (lo : nat) (prev : option ascii) (s : string) : option nat :=
  let stop := match lo with
              | O => k prev s
              | S _ => None
              end in
  match s with
  | String c s' =>
      if p c then
        match rep k p (pred lo) (Some c) s' with
        | Some n => Some (S n)
        | None => stop
        end
      else stop
  | EmptyString => stop
  end.

(** Length of the match of [r] starting at the current position. *)
Fixpoint match_here (r : regex) (prev : option ascii) (s : string)
  : option nat :=
  match r with
  | [] => Some O
  | Chr p :: r' =>
      match s with
      | String c s' =>
          if p c then option_map S (match_here r' (Some c) s') else None
      | EmptyString => None
      end
  | Rep lo p :: r' => rep (match_here r') p lo prev s
  | WordB :: r' =>
      if xorb (word_before prev) (word_after s)
      then match_here r' prev s
      else None
  end.

(** Leftmost match: its text, scanning from the current position. *)
Fixpoint search_from (r : regex) (prev : option ascii) (s : string)
  : option string :=
  match match_here r prev s with
  | Some n => Some (substring 0 n s)
  | None =>
      match s with
      | String c s' => search_from r (Some c) s'
      | EmptyString => None
      end
  end.

(** [re.search(pat, s, flags)]: the matched text, or [None]. *)
Definition search (pat : pattern) (s : string) (f : flags) : option string :=
  search_from (pat f) None s.

(** Successive non-overlapping matches, left to right; [skip] characters
    of the last match are still to be passed over. *)
Fixpoint findall_from (r : regex) (prev : option ascii) (skip : nat)
    (s : string) : list string :=
  match skip with
  | S k =>
      match s with
      | String c s' => findall_from r (Some c) k s'
      | EmptyString => []
      end
  | O =>
      match match_here r prev s with
      | Some n =>
          substring 0 n s ::
          match s with
          | String c s' => findall_from r (Some c) (pred n) s'
          | EmptyString => []
          end
      | None =>
          match s with
          | String c s' => findall_from r (Some c) O s'
          | EmptyString => []
          end
      end
  end.

(** [re.findall(pat, s, flags)] for a pattern without groups. *)
Definition findall (pat : pattern) (s : string) (f : flags) : list string :=
  findall_from (pat f) None O s.

(** Pieces between successive matches; [cur] is the piece being read. *)
Fixpoint split_from (r : regex) (prev : option ascii) (skip : nat)
    (cur : string) (s : string) : list string :=
  match skip with
  | S k =>
      match s with
      | String c s' => split_from r (Some c) k cur s'
      | EmptyString => [cur]
      end
  | O =>
      match match_here r prev s, s with
      | Some (S n), String c s' => cur :: split_from r (Some c) n EmptyString s'
      | _, String c s' => split_from r (Some c) O (cur ++ String c EmptyString)%string s'
      | _, EmptyString => [cur]
      end
  end.

(** [re.split(pat, s)] for a pattern that matches no empty string. *)
Definition split (pat : pattern) (s : string) : list string :=
  split_from (pat NOFLAG) None O EmptyString s.

End Re.

(* ================================================================== *)
(** * The engine *)
(* ================================================================== *)

Import Py.
Local Open Scope float_scope.

(** Confidence levels for validation results. *)
Inductive ConfidenceLevel : Type :=
| HIGH
| MEDIUM
| LOW
| INSUFFICIENT.

(** One entry of [details]: [{"score": ..., "warnings": ...}]. *)
Record Detail : Type := {
  detail_score : float;
  detail_warnings : nat
}.

(** Result of a validation operation; [timestamp] is the clock reading. *)
Record ValidationResult : Type := {
  is_valid : bool;
  confidence : ConfidenceLevel;
  score : float;
  details : list (string * Detail);
  warnings : list string;
  timestamp : Z;
  validation_type : string
}.

(** The configuration dict: an entry is [None] when its key is absent. *)
Record Config : Type := {
  confidence_threshold : option float;
  enable_factual_validation : option bool;
  enable_logical_consistency : option bool;
  enable_source_attribution : option bool;
  max_warnings : option Z
}.

(** Truth value of the dict: false when empty. *)
Definition config_truthy (c : Config) : bool :=
  match c with
  | {| confidence_threshold := None;
       enable_factual_validation := None;
       enable_logical_consistency := None;
       enable_source_attribution := None;
       max_warnings := None |} => false
  | _ => true
  end.

Record OutputValidator : Type := {
  config : Config;
  validation_rules : list (string * list Re.pattern)
}.

Definition _default_config : Config := {|
  confidence_threshold := Some 0.7;
  enable_factual_validation := Some true;
  enable_logical_consistency := Some true;
  enable_source_attribution := Some true;
  max_warnings := Some 10%Z
|}.

Definition _load_validation_rules : list (string * list Re.pattern) :=
  [ ("factual_patterns",
     [ (* according to [^,]+, *)
       Re.seq [Re.lit "according to "; Re.plus (Re.neg (Re.is_char ","));
               Re.lit ","];
       Re.lit "studies show";
       Re.lit "research indicates";
       Re.lit "data suggests";
       Re.lit "statistics show" ]);
    ("uncertainty_indicators",
     [ Re.lit "might be";
       Re.lit "could be";
       Re.lit "possibly";
       Re.lit "perhaps";
       Re.lit "it seems";
       Re.lit "appears to" ]);
    ("citation_patterns",
     [ (* \[[\d\w\s,]+\] *)
       Re.seq [Re.lit "[";
               Re.plus (Re.any_of [Re.is_digit; Re.is_word; Re.is_space;
                                   Re.is_char ","]);
               Re.lit "]"];
       (* \([^)]*20\d{2}[^)]*\) *)
       Re.seq [Re.lit "("; Re.star (Re.neg (Re.is_char ")")); Re.lit "20";
               Re.set Re.is_digit; Re.set Re.is_digit;
               Re.star (Re.neg (Re.is_char ")")); Re.lit ")"];
       Re.lit "source:";
       Re.lit "reference:";
       Re.lit "according to" ]) ].

(** [OutputValidator(config)]: [self.config = config or self._default_config()]. *)
Definition __init__ (config : option Config) : OutputValidator := {|
  config := match config with
            | Some c => if config_truthy c then c else _default_config
            | None => _default_config
            end;
  validation_rules := _load_validation_rules
|}.

(** Validate factual claims in the output. *)
Definition _validate_factual_claims (self : OutputValidator) (output : string)
  : result (float * list string) :=
  let warnings : list string := [] in
  let score := 1.0 in
  (* Check for unsupported factual claims *)
  factual_patterns <- getitem (validation_rules self) "factual_patterns" ;;
  '(score, warnings) <-
    for_each factual_patterns
      (fun '(score, warnings) pattern =>
         let matches := Re.findall pattern output Re.IGNORECASE in
         if truthy matches then
           m0 <- subscript matches 0 ;;
           Ok (score - 0.2,
               warnings ++ [("Unsupported factual claim detected: " ++ m0)%string])
         else Ok (score, warnings))
      (score, warnings) ;;
  (* Check for uncertainty indicators (good sign) *)
  uncertainty_patterns <- getitem (validation_rules self) "uncertainty_indicators" ;;
  let uncertainty_count := O in
  uncertainty_count <-
    for_each uncertainty_patterns
      (fun uncertainty_count pattern =>
         Ok (uncertainty_count
             + List.length (Re.findall pattern output Re.IGNORECASE))%nat)
      uncertainty_count ;;
  let score :=
    if (0 <? uncertainty_count)%nat
    then score + min (float_of_len uncertainty_count * 0.1) 0.3
    else score in
  Ok (max 0.0 (min 1.0 score), warnings).

(** [rf"\b{word}\b"]. *)
Definition whole_word (word : string) : Re.pattern :=
  Re.seq [Re.wordb; Re.lit word; Re.wordb].

Definition is_match (m : option string) : bool :=
  match m with
  | Some _ => true
  | None => false
  end.

(** Validate logical consistency of the output. *)
Definition _validate_logical_consistency (self : OutputValidator) (output : string)
  : result (float * list string) :=
  let warnings : list string := [] in
  let score := 1.0 in
  (* Check for contradictory statements *)
  let contradictions :=
    [ ("always", "never");
      ("all", "none");
      ("every", "no");
      ("completely", "partially") ] in
  '(score, warnings) <-
    for_each contradictions
      (fun '(score, warnings) '(pos, neg) =>
         if is_match (Re.search (whole_word pos) output Re.IGNORECASE)
            && is_match (Re.search (whole_word neg) output Re.IGNORECASE)
         then Ok (score - 0.3,
                  warnings ++ [("Potential contradiction detected: " ++ pos
                                ++ " vs " ++ neg)%string])
         else Ok (score, warnings))
      (score, warnings) ;;
  (* Check for logical flow *)
  let sentences :=
    Re.split (Re.plus (Re.any_of [Re.is_char "."; Re.is_char "!"; Re.is_char "?"]))
             output in
  let score :=
    if (1 <? List.length sentences)%nat then
      (* Simple coherence check *)
      let transition_words :=
        ["however"; "therefore"; "moreover"; "furthermore"; "additionally"] in
      let has_transitions :=
        existsb (fun word => contains word (lower output)) transition_words in
      if has_transitions then score + 0.1 else score
    else score in
  Ok (max 0.0 (min 1.0 score), warnings).

(** Validate source attribution and citations. *)
Definition _validate_source_attribution (self : OutputValidator) (output : string)
  : result (float * list string) :=
  let warnings : list string := [] in
  let score := 1.0 in
  citation_patterns <- getitem (validation_rules self) "citation_patterns" ;;
  let has_citations :=
    existsb (fun pattern => is_match (Re.search pattern output Re.IGNORECASE))
            citation_patterns in
  let '(score, warnings) :=
    if negb has_citations
    then (score - 0.4, warnings ++ ["No citations or source attributions found"])
    else (score, warnings) in
  (* Check for proper citation format *)
  '(score, warnings) <-
    (if has_citations then
       (* Look for incomplete citations: \[[^\]]*\] *)
       let incomplete_citations :=
         Re.findall (Re.seq [Re.lit "["; Re.star (Re.neg (Re.is_char "]"));
                             Re.lit "]"])
                    output Re.NOFLAG in
       for_each incomplete_citations
         (fun '(score, warnings) citation =>
            if (String.length citation <? 5)%nat (* Very short citations *)
            then Ok (score - 0.1,
                     warnings ++ [("Incomplete citation: " ++ citation)%string])
            else Ok (score, warnings))
         (score, warnings)
     else Ok (score, warnings)) ;;
  Ok (max 0.0 (min 1.0 score), warnings).

(** Determine confidence level based on score. *)
Definition _determine_confidence (score : float) : ConfidenceLevel :=
  if ge score 0.9 then HIGH
  else if ge score 0.7 then MEDIUM
  else if ge score 0.5 then LOW
  else INSUFFICIENT.

(** Validate an AI output; [now] is what [datetime.now()] reads. *)
Definition validate (self : OutputValidator) (now : Z) (output : string)
    (context : option string) (validation_type : string)
  : result ValidationResult :=
  let warnings : list string := [] in
  let details : list (string * Detail) := [] in
  let score := 0.0 in
  (* Factual validation *)
  '(score, warnings, details) <-
    (if get (enable_factual_validation (config self)) true then
       '(factual_score, factual_warnings) <- _validate_factual_claims self output ;;
       Ok (score + factual_score * 0.4,
           warnings ++ factual_warnings,
           setitem details "factual_validation"
             {| detail_score := factual_score;
                detail_warnings := List.length factual_warnings |})
     else Ok (score, warnings, details)) ;;
  (* Logical consistency *)
  '(score, warnings, details) <-
    (if get (enable_logical_consistency (config self)) true then
       '(logical_score, logical_warnings) <- _validate_logical_consistency self output ;;
       Ok (score + logical_score * 0.3,
           warnings ++ logical_warnings,
           setitem details "logical_consistency"
             {| detail_score := logical_score;
                detail_warnings := List.length logical_warnings |})
     else Ok (score, warnings, details)) ;;
  (* Source attribution *)
  '(score, warnings, details) <-
    (if get (enable_source_attribution (config self)) true then
       '(source_score, source_warnings) <- _validate_source_attribution self output ;;
       Ok (score + source_score * 0.3,
           warnings ++ source_warnings,
           setitem details "source_attribution"
             {| detail_score := source_score;
                detail_warnings := List.length source_warnings |})
     else Ok (score, warnings, details)) ;;
  (* Determine confidence level *)
  let confidence := _determine_confidence score in
  (* Check if valid based on threshold *)
  let is_valid := ge score (get (confidence_threshold (config self)) 0.7) in
  (* Limit warnings *)
  let max_warnings := get (max_warnings (config self)) 10%Z in
  let warnings :=
    if (Z.of_nat (List.length warnings) >? max_warnings)%Z then
      let warnings := slice_to warnings max_warnings in
      warnings ++ [("... and "
                    ++ str_of_int (Z.of_nat (List.length warnings) - max_warnings)
                    ++ " more warnings")%string]
    else warnings in
  Ok {| is_valid := is_valid;
        confidence := confidence;
        score := score;
        details := details;
        warnings := warnings;
        timestamp := now;
        validation_type := validation_type |}.

(* ================================================================== *)
(** * What the engine is expected to compute

    The quantities the design document speaks of, written as functions of
    the text.  The engine above is compared with them below. *)
(* ================================================================== *)

(** A rule list of the catalogue. *)
Definition rules (key : string) : list Re.pattern :=
  match getitem _load_validation_rules key with
  | Ok l => l
  | Raise _ => []
  end.

(** Clamp to [0.0, 1.0]. *)
Definition clamp (x : float) : float := max 0.0 (min 1.0 x).

(** [s] minus [d], [n] times over. *)
Fixpoint deduct (d : float) (n : nat) (s : float) : float :=
  match n with
  | O => s
  | S n' => deduct d n' (s - d)
  end.

(** The pattern matches somewhere in the text, case-insensitively. *)
Definition matches (output : string) (pattern : Re.pattern) : bool :=
  is_match (Re.search pattern output Re.IGNORECASE).

(** Its first (leftmost) match. *)
Definition first_match (output : string) (pattern : Re.pattern) : string :=
  match Re.search pattern output Re.IGNORECASE with
  | Some m => m
  | None => EmptyString
  end.

(** Number of its matches in the text. *)
Definition match_count (output : string) (pattern : Re.pattern) : nat :=
  List.length (Re.findall pattern output Re.IGNORECASE).

(** Factual-claim detector: 1.0, minus 0.2 per matching factual pattern,
    plus the hedging bonus [min(0.1 * count, 0.3)], clamped; one warning per
    matching pattern quoting its first match. *)
Definition spec_factual_claims (output : string) : float * list string :=
  let hits := filter (matches output) (rules "factual_patterns") in
  let hedges :=
    list_sum (map (match_count output) (rules "uncertainty_indicators")) in
  (clamp (deduct 0.2 (List.length hits) 1.0
          + min (float_of_len hedges * 0.1) 0.3),
   map (fun p => ("Unsupported factual claim detected: "
                  ++ first_match output p)%string) hits).

Definition contradiction_pairs : list (string * string) :=
  [ ("always", "never"); ("all", "none"); ("every", "no");
    ("completely", "partially") ].

Definition transition_words : list string :=
  ["however"; "therefore"; "moreover"; "furthermore"; "additionally"].

(** Sentence-terminal punctuation, [[.!?]+]. *)
Definition is_terminal : ascii -> bool :=
  Re.any_of [Re.is_char "."; Re.is_char "!"; Re.is_char "?"].

Definition sentence_end : Re.pattern := Re.plus is_terminal.

(** Some character of the text is in the class. *)
Fixpoint has_char (p : ascii -> bool) (s : string) : bool :=
  match s with
  | EmptyString => false
  | String c s' => p c || has_char p s'
  end.

(** The position reached after [n] characters: the character before it
    and the text after it. *)
Fixpoint advance (n : nat) (prev : option ascii) (s : string)
  : option ascii * string :=
  match n, s with
  | S n', String c s' => advance n' (Some c) s'
  | _, _ => (prev, s)
  end.

(** A word character on exactly one side of the position. *)
Definition boundary (prev : option ascii) (s : string) : bool :=
  xorb (Re.word_before prev) (Re.word_after s).

(** The word stands at this position as a whole word: a boundary, the word
    up to case, a boundary. *)
Definition whole_word_here (w : string) (prev : option ascii) (s : string)
  : bool :=
  boundary prev s
  && prefix (lower w) (lower s)
  && (let '(prev', s') := advance (String.length w) prev s in
      boundary prev' s').

(** The word stands as a whole word somewhere from this position on. *)
Fixpoint whole_word_in (w : string) (prev : option ascii) (s : string) : bool :=
  whole_word_here w prev s ||
  match s with
  | EmptyString => false
  | String c s' => whole_word_in w (Some c) s'
  end.

(** The word occurs as a whole word, case-insensitively. *)
Definition occurs (output : string) (word : string) : bool :=
  is_match (Re.search (whole_word word) output Re.IGNORECASE).

Definition both_occur (output : string) (pair : string * string) : bool :=
  occurs output (fst pair) && occurs output (snd pair).

(** More than one segment, and some transition word in the lower-cased
    text. *)
Definition has_flow (output : string) : bool :=
  (1 <? List.length (Re.split sentence_end output))%nat
  && existsb (fun word => contains word (lower output)) transition_words.

(** Logical-consistency detector: 1.0, minus 0.3 per pair whose two words
    both occur, plus a flat 0.1 when [has_flow], clamped; one warning per
    such pair. *)
Definition spec_logical_consistency (output : string) : float * list string :=
  let hits := filter (both_occur output) contradiction_pairs in
  let base := deduct 0.3 (List.length hits) 1.0 in
  (clamp (if has_flow output then base + 0.1 else base),
   map (fun pair => ("Potential contradiction detected: " ++ fst pair
                     ++ " vs " ++ snd pair)%string) hits).

(** Some citation pattern matches. *)
Definition has_citations (output : string) : bool :=
  existsb (matches output) (rules "citation_patterns").

(** Bracketed spans, [\[[^\]]*\]]. *)
Definition bracketed : Re.pattern :=
  Re.seq [Re.lit "["; Re.star (Re.neg (Re.is_char "]")); Re.lit "]"].

(** The bracketed spans shorter than 5 characters. *)
Definition short_spans (output : string) : list string :=
  filter (fun span => (String.length span <? 5)%nat)
         (Re.findall bracketed output Re.NOFLAG).

Definition missing_citations : string :=
  "No citations or source attributions found".

(** Source-attribution detector: without a citation, 1.0 minus 0.4 and the
    missing-citations warning; with one, 1.0 minus 0.1 per short bracketed
    span and a warning for each; clamped. *)
Definition spec_source_attribution (output : string) : float * list string :=
  if has_citations output then
    (clamp (deduct 0.1 (List.length (short_spans output)) 1.0),
     map (fun span => ("Incomplete citation: " ++ span)%string)
         (short_spans output))
  else
    (clamp (1.0 - 0.4), [missing_citations]).

(** One enabled detector: its [details] key, its weight, what it returns. *)
Record Run : Type := {
  run_key : string;
  run_weight : float;
  run_score : float;
  run_warnings : list string
}.

Definition run (key : string) (weight : float) (r : float * list string) : Run :=
  {| run_key := key; run_weight := weight;
     run_score := fst r; run_warnings := snd r |}.

(** The detectors a configuration enables, in the order factual, logical,
    source, with the weights 0.4, 0.3 and 0.3. *)
Definition enabled_runs (c : Config) (output : string) : list Run :=
  (if get (enable_factual_validation c) true
   then [run "factual_validation" 0.4 (spec_factual_claims output)] else [])
  ++ (if get (enable_logical_consistency c) true
      then [run "logical_consistency" 0.3 (spec_logical_consistency output)]
      else [])
  ++ (if get (enable_source_attribution c) true
      then [run "source_attribution" 0.3 (spec_source_attribution output)]
      else []).

(** Sum of sub-score times weight, accumulated from 0.0 in that order. *)
Definition weighted_sum (runs : list Run) : float :=
  fold_left (fun total r => total + run_score r * run_weight r) runs 0.0.

(** All warnings, detector by detector. *)
Definition all_warnings (runs : list Run) : list string :=
  List.concat (map run_warnings runs).

Definition details_of (runs : list Run) : list (string * Detail) :=
  map (fun r => (run_key r,
                 {| detail_score := run_score r;
                    detail_warnings := List.length (run_warnings r) |})) runs.

(** The synthetic last entry of a truncated warning list. *)
Definition summary (omitted : Z) : string :=
  ("... and " ++ str_of_int omitted ++ " more warnings")%string.

(** The warning list as returned under the limit [k]. *)
Definition limit_warnings (k : Z) (ws : list string) : list string :=
  if (Z.of_nat (List.length ws) >? k)%Z then
    slice_to ws k
    ++ [summary (Z.of_nat (List.length (slice_to ws k)) - k)]
  else ws.

Definition threshold_of (c : Config) : float := get (confidence_threshold c) 0.7.
Definition max_warnings_of (c : Config) : Z := get (max_warnings c) 10%Z.

(** Inputs of the examples. *)
Definition sky_text : string :=
  "According to recent studies, the sky is always blue everywhere on Earth.".

Definition empty_text : string := EmptyString.

Definition busy_text : string :=
  "Studies show all or none, always never. According to x, research indicates [1] [] perhaps; however (in 2020)".

Definition only_max_warnings (k : Z) : Config := {|
  confidence_threshold := None;
  enable_factual_validation := None;
  enable_logical_consistency := None;
  enable_source_attribution := None;
  max_warnings := Some k
|}.

Definition limit_two : Config := only_max_warnings 2.
Definition limit_minus_one : Config := only_max_warnings (-1).

(* ================================================================== *)
(** * Serialisation, the interface and the command line

    [ValidationResult.to_dict], the class [ValidationInterface] and the
    functions of [core/validation_interface.py], and [main] of
    [cli/validate.py] after [argparse].  A clock reading is passed to each
    call that creates a result; [datetime.isoformat] is taken as given. *)
(* ================================================================== *)

(** [ConfidenceLevel.<member>.value] and [ConfidenceLevel.<member>.name]. *)
Definition value (c : ConfidenceLevel) : string :=
  match c with
  | HIGH => "high"
  | MEDIUM => "medium"
  | LOW => "low"
  | INSUFFICIENT => "insufficient"
  end.

Definition name (c : ConfidenceLevel) : string :=
  match c with
  | HIGH => "HIGH"
  | MEDIUM => "MEDIUM"
  | LOW => "LOW"
  | INSUFFICIENT => "INSUFFICIENT"
  end.

(** The values a serialised result is made of: a bool, an int, a float, a
    string, the list of warnings, the dict of details. *)
Inductive pyval : Type :=
| PyBool (b : bool)
| PyInt (n : Z)
| PyFloat (f : float)
| PyStr (s : string)
| PyList (l : list string)
| PyDict (d : list (string * Detail)).

(** Convert to dictionary for serialization. *)
Definition to_dict (isoformat : Z -> string) (self : ValidationResult)
  : list (string * pyval) :=
  [ ("is_valid", PyBool (is_valid self));
    ("confidence", PyStr (value (confidence self)));
    ("score", PyFloat (score self));
    ("details", PyDict (details self));
    ("warnings", PyList (warnings self));
    ("timestamp", PyStr (isoformat (timestamp self)));
    ("validation_type", PyStr (validation_type self)) ].

(** [d.update(kwargs)]: the keys given replace the old entries. *)
Definition config_update (d kwargs : Config) : Config :=
  let pick {V : Type} (new old : option V) : option V :=
    match new with
    | Some v => Some v
    | None => old
    end in
  {| confidence_threshold :=
       pick (confidence_threshold kwargs) (confidence_threshold d);
     enable_factual_validation :=
       pick (enable_factual_validation kwargs) (enable_factual_validation d);
     enable_logical_consistency :=
       pick (enable_logical_consistency kwargs) (enable_logical_consistency d);
     enable_source_attribution :=
       pick (enable_source_attribution kwargs) (enable_source_attribution d);
     max_warnings := pick (max_warnings kwargs) (max_warnings d) |}.

(** The class [ValidationInterface]. *)
Module ValidationInterface.

Record t : Type := {
  validator : OutputValidator;
  _default_config : Config
}.

Definition validate_output (self : t) (now : Z) (output : string)
    (context : option string) (validation_type : string)
  : result ValidationResult :=
  validate (validator self) now output context validation_type.

(** Quick validation check. *)
Definition quick_check (self : t) (now : Z) (output : string) : result bool :=
  r <- validate_output self now output None "quick" ;;
  Ok (is_valid r).

(** Get confidence score for an output. *)
Definition get_confidence_score (self : t) (now : Z) (output : string)
  : result float :=
  r <- validate_output self now output None "quick" ;;
  Ok (score r).

(** Get a summary of validation results. *)
Definition get_validation_summary (isoformat : Z -> string) (self : t)
    (now : Z) (output : string) : result (list (string * pyval)) :=
  r <- validate_output self now output None "comprehensive" ;;
  Ok [ ("is_valid", PyBool (is_valid r));
       ("confidence", PyStr (value (confidence r)));
       ("score", PyFloat (score r));
       ("warning_count", PyInt (Z.of_nat (List.length (warnings r))));
       ("validation_type", PyStr (validation_type r));
       ("timestamp", PyStr (isoformat (timestamp r))) ].

(** Validate multiple outputs in batch; the call for the [i]-th output
    reads the clock at [clock i]. *)
Definition batch_validate (self : t) (clock : nat -> Z) (outputs : list string)
    (validation_type : string) : result (list ValidationResult) :=
  let results : list ValidationResult := [] in
  for_each outputs
    (fun results output =>
       r <- validate_output self (clock (List.length results)) output None
              validation_type ;;
       Ok (results ++ [r]))
    results.

(** Update validation configuration. *)
Definition configure (self : t) (kwargs : Config) : t :=
  let d := config_update (_default_config self) kwargs in
  {| validator := __init__ (Some d);
     _default_config := d |}.

(** Initialize the validation interface. *)
Definition __init__ (config : option Config) : t := {|
  validator := __init__ config;
  _default_config := {| confidence_threshold := Some 0.7;
                        enable_factual_validation := Some true;
                        enable_logical_consistency := Some true;
                        enable_source_attribution := Some true;
                        max_warnings := Some 10%Z |}
|}.

End ValidationInterface.

(** Convenience functions for quick access. *)
Definition quick_check (now : Z) (output : string) : result bool :=
  let interface := ValidationInterface.__init__ None in
  ValidationInterface.quick_check interface now output.

Definition quick_validate (now : Z) (output : string) (context : option string)
  : result ValidationResult :=
  let interface := ValidationInterface.__init__ None in
  ValidationInterface.validate_output interface now output context "quick".

Definition comprehensive_validate (now : Z) (output : string)
    (context : option string) : result ValidationResult :=
  let interface := ValidationInterface.__init__ None in
  ValidationInterface.validate_output interface now output context
    "comprehensive".

(** Get confidence level string from score. *)
Definition get_confidence_level (score : float) : string :=
  if ge score 0.9 then "HIGH"
  else if ge score 0.7 then "MEDIUM"
  else if ge score 0.5 then "LOW"
  else "INSUFFICIENT".

(** The class [LithiumMCPServer] of [mcp/server.py]: its pure helper. *)
Module LithiumMCPServer.

(** Get confidence level string from score. *)
Definition _get_confidence_level (score : float) : string :=
  if ge score 0.9 then "HIGH"
  else if ge score 0.7 then "MEDIUM"
  else if ge score 0.5 then "LOW"
  else "INSUFFICIENT".

End LithiumMCPServer.

(** Every character of the text is in the class. *)
Fixpoint all_chars (p : ascii -> bool) (s : string) : bool :=
  match s with
  | EmptyString => true
  | String c s' => p c && all_chars p s'
  end.

(** [s.strip()]: white space is what [str.isspace] accepts, the class of
    [\s]. *)
Fixpoint lstrip (s : string) : string :=
  match s with
  | EmptyString => EmptyString
  | String c s' => if Re.is_space c then lstrip s' else s
  end.

Fixpoint rstrip (s : string) : string :=
  match s with
  | EmptyString => EmptyString
  | String c s' =>
      match rstrip s' with
      | EmptyString => if Re.is_space c then EmptyString else String c EmptyString
      | r => String c r
      end
  end.

Definition strip (s : string) : string := rstrip (lstrip s).

(** [str(e)] of the exceptions of the engine. *)
Definition str_of_exn (e : exn) : string :=
  match e with
  | KeyError key => ("'" ++ key ++ "'")%string
  | IndexError => "list index out of range"
  end.

(** The command line, [cli/validate.py]. *)
Module Cli.

(** The namespace [argparse] returns. *)
Record Args : Type := {
  text : option string;
  file : option string;
  type : string;
  context : option string;
  json : bool;
  quiet : bool;
  threshold : float
}.

(** What opening and reading a file gives. *)
Inductive opened : Type :=
| Read (content : string)
| FileNotFoundError
| OtherException (message : string).

(** What the process writes: a line on a stream, the JSON document of a
    dict, the report [print_validation_result] prints, or that report up to
    the [print] that raised. *)
Inductive output : Type :=
| Stdout (line : string)
| Stderr (line : string)
| StdoutJson (d : list (string * pyval))
| StdoutReport (r : ValidationResult) (validation_type : string)
| StdoutReportInterrupted (r : ValidationResult) (validation_type : string).

(** Truth value of an optional string: [None] and the empty string are
    false. *)
Definition given (s : option string) : option string :=
  match s with
  | Some (String c s') => Some (String c s')
  | _ => None
  end.

(** Main CLI entry point: what is written and the exit code.
    [report_raises r t] tells whether a [print] of
    [print_validation_result(r, t)] raises, and with which message: the
    report holds characters the standard output may be unable to encode,
    and it is printed inside the [try]. *)
Definition main (fs : string -> opened) (isoformat : Z -> string)
    (report_raises : ValidationResult -> string -> option string) (now : Z)
    (args : Args) : list output * Z :=
  (* Get text to validate *)
  let text : list output * Z + option string :=
    match given (file args) with
    | Some path =>
        match fs path with
        | Read content => inr (Some (strip content))
        | FileNotFoundError =>
            inl ([Stderr ("Error: File '" ++ path ++ "' not found")%string],
                 1%Z)
        | OtherException e =>
            inl ([Stderr ("Error reading file: " ++ e)%string], 1%Z)
        end
    | None => inr (text args)
    end in
  match text with
  | inl exit => exit
  | inr text =>
      match given text with
      | None => ([Stderr "Error: No text provided for validation"], 1%Z)
      | Some text =>
          (* Configure validator *)
          let config := {| confidence_threshold := Some (threshold args);
                           enable_factual_validation := None;
                           enable_logical_consistency := None;
                           enable_source_attribution := None;
                           max_warnings := None |} in
          let interface := ValidationInterface.__init__ (Some config) in
          (* Perform validation *)
          match ValidationInterface.validate_output interface now text
                  (context args) (type args) with
          | Ok r =>
              if quiet args then
                ([Stdout (if is_valid r then "true" else "false")],
                 if is_valid r then 0%Z else 1%Z)
              else if json args then ([StdoutJson (to_dict isoformat r)], 0%Z)
              else
                match report_raises r (type args) with
                | None => ([StdoutReport r (type args)], 0%Z)
                | Some e =>
                    ([StdoutReportInterrupted r (type args);
                      Stderr ("Error during validation: " ++ e)%string], 1%Z)
                end
          | Raise e =>
              ([Stderr ("Error during validation: " ++ str_of_exn e)%string],
               1%Z)
          end
      end
  end.

(** The text [main] goes on to validate, if it gets one: the stripped
    content of the file when a file is named, the positional argument
    otherwise, and in both cases not the empty string. *)
Definition text_to_validate (fs : string -> opened) (args : Args)
  : option string :=
  match given (file args) with
  | Some path =>
      match fs path with
      | Read content => given (Some (strip content))
      | _ => None
      end
  | None => given (text args)
  end.

(** The configuration [main] builds: [{"confidence_threshold": threshold}]. *)
Definition config_of (args : Args) : Config := {|
  confidence_threshold := Some (threshold args);
  enable_factual_validation := None;
  enable_logical_consistency := None;
  enable_source_attribution := None;
  max_warnings := None
|}.

End Cli.

(** ** Letter case *)

(** An ASCII character, U+0000..U+007F. *)
Definition is_ascii (c : ascii) : bool := between 0 127 c.

(** A character class that does not tell a letter from its lower case. *)
Definition case_blind (p : ascii -> bool) : Prop :=
  forall c : ascii, p (lower_char c) = p c.

(** The character before a position, in the lower-cased text. *)
Definition lower_prev (prev : option ascii) : option ascii :=
  option_map lower_char prev.

Definition case_blind_atom (a : Re.atom) : Prop :=
  match a with
  | Re.Chr p => case_blind p
  | Re.Rep _ p => case_blind p
  | Re.WordB => True
  end.

Definition case_blind_regex (r : Re.regex) : Prop := Forall case_blind_atom r.

(** Arguments of the examples. *)
Definition quiet_args (t : option string) (f : option string) (q : bool)
    (th : float) : Cli.Args := {|
  Cli.text := t;
  Cli.file := f;
  Cli.type := "comprehensive";
  Cli.context := None;
  Cli.json := false;
  Cli.quiet := q;
  Cli.threshold := th
|}.

(** The result for the empty text, created at a given time, and an
    [isoformat] that keeps nothing of the time. *)
Definition stamped (t : Z) : ValidationResult := {|
  is_valid := true;
  confidence := MEDIUM;
  score := 0.8799999999999999;
  details := [];
  warnings := ["No citations or source attributions found"%string];
  timestamp := t;
  validation_type := "quick"
|}.

Definition coarse_isoformat (t : Z) : string := "2026".

(** A standard output that cannot take any report. *)
Definition always_raises (r : ValidationResult) (t : string) : option string :=
  Some "'latin-1' codec can't encode character".

(** A file system with one file, of three blanks. *)
Definition blank_file (path : string) : Cli.opened :=
  if String.eqb path "blank.txt" then Cli.Read "   " else Cli.FileNotFoundError.

(** The kwargs [confidence_threshold=t]. *)
Definition only_threshold (t : float) : Config := {|
  confidence_threshold := Some t;
  enable_factual_validation := None;
  enable_logical_consistency := None;
  enable_source_attribution := None;
  max_warnings := None
|}.

Definition no_config : Config := {|
  confidence_threshold := None;
  enable_factual_validation := None;
  enable_logical_consistency := None;
  enable_source_attribution := None;
  max_warnings := None
|}.

Definition all_disabled : Config := {|
  confidence_threshold := None;
  enable_factual_validation := Some false;
  enable_logical_consistency := Some false;
  enable_source_attribution := Some false;
  max_warnings := None
|}.

(* ================================================================== *)
(** * The order of binary64 *)
(* ================================================================== *)

Module FloatOrder.

Lemma SFcompare_antisym (x y : spec_float) :
  SFcompare y x = option_map CompOpp (SFcompare x y).
Proof.
  destruct x as [sx|sx| |sx mx ex], y as [sy|sy| |sy my ey]; simpl;
    try destruct sx; try destruct sy; simpl; try reflexivity.
  - rewrite (Z.compare_antisym ex ey).
    destruct (ex ?= ey)%Z; simpl; try reflexivity.
    rewrite Pos.compare_cont_antisym. simpl. now rewrite CompOpp_involutive.
  - rewrite (Z.compare_antisym ex ey).
    destruct (ex ?= ey)%Z; simpl; try reflexivity.
    now rewrite Pos.compare_cont_antisym.
Qed.

(** Only a NaN is incomparable. *)
Lemma SFcompare_None (x y : spec_float) :
  SFcompare x y = None -> x = S754_nan \/ y = S754_nan.
Proof.
  destruct x as [sx|sx| |sx mx ex], y as [sy|sy| |sy my ey]; simpl;
    try destruct sx; try destruct sy; simpl; intros H;
    try discriminate H; auto.
Qed.

Lemma SFcompare_nan_r (x : spec_float) : SFcompare x S754_nan = None.
Proof. now destruct x as [s|s| |s m e]; try destruct s. Qed.

Lemma SFleb_ltb_trans (x y z : spec_float) :
  SFleb x y = true -> SFltb y z = true -> SFltb x z = true.
Proof.
  unfold SFleb, SFltb.
  destruct x as [sx|sx| |sx mx ex], y as [sy|sy| |sy my ey],
           z as [sz|sz| |sz mz ez]; simpl;
    try destruct sx; try destruct sy; try destruct sz; simpl; try congruence;
    repeat match goal with
      | |- context [(?a ?= ?b)%Z] =>
          destruct (Z.compare_spec a b); subst; simpl
      | |- context [Pos.compare_cont Eq ?a ?b] =>
          change (Pos.compare_cont Eq a b) with (Pos.compare a b);
          destruct (Pos.compare_spec a b); subst; simpl
      end; try congruence; try lia.
Qed.

Lemma ltb_leb (x y : float) : (x <? y) = true -> (x <=? y) = true.
Proof.
  rewrite ltb_spec, leb_spec. unfold SFltb, SFleb.
  destruct (SFcompare _ _) as [[]|]; congruence.
Qed.

Lemma ltb_not_leb (x y : float) : (x <? y) = true -> (y <=? x) = false.
Proof.
  rewrite ltb_spec, leb_spec. unfold SFltb, SFleb.
  rewrite (SFcompare_antisym (Prim2SF x) (Prim2SF y)).
  destruct (SFcompare _ _) as [[]|]; simpl; congruence.
Qed.

(** Below [b], for an [x] comparable with something and a [b] that is
    not a NaN. *)
Lemma not_leb_ltb (a b x : float) :
  (a <=? x) = true -> (b <=? b) = true -> (b <=? x) = false ->
  (x <? b) = true.
Proof.
  rewrite ltb_spec, !leb_spec. unfold SFltb, SFleb.
  rewrite (SFcompare_antisym (Prim2SF b) (Prim2SF x)).
  intros Hax Hbb Hbx.
  destruct (SFcompare (Prim2SF b) (Prim2SF x)) as [[]|] eqn:E;
    simpl in *; try congruence.
  destruct (SFcompare_None _ _ E) as [N|N]; rewrite N in *.
  - simpl in Hbb. discriminate.
  - rewrite SFcompare_nan_r in Hax. discriminate.
Qed.

Lemma leb_ltb_trans (x y z : float) :
  (x <=? y) = true -> (y <? z) = true -> (x <? z) = true.
Proof. rewrite !ltb_spec, leb_spec. apply SFleb_ltb_trans. Qed.

End FloatOrder.

(* ================================================================== *)
(** * Confidence tiers *)
(* ================================================================== *)

(** The bands of [_determine_confidence]: HIGH exactly from 0.9 on,
    MEDIUM exactly on [0.7 <= s < 0.9], LOW exactly on [0.5 <= s < 0.7],
    INSUFFICIENT in every other case; each lower bound is included. *)
Lemma determine_confidence_tiers (s : float) :
  (_determine_confidence s = HIGH <-> (0.9 <=? s) = true) /\
  (_determine_confidence s = MEDIUM <->
     (0.7 <=? s) = true /\ (s <? 0.9) = true) /\
  (_determine_confidence s = LOW <->
     (0.5 <=? s) = true /\ (s <? 0.7) = true) /\
  (_determine_confidence s = INSUFFICIENT <->
     (0.9 <=? s) = false /\
     ((0.7 <=? s) && (s <? 0.9) = false) /\
     ((0.5 <=? s) && (s <? 0.7) = false)) /\
  _determine_confidence 0.9 = HIGH /\
  _determine_confidence 0.7 = MEDIUM /\
  _determine_confidence 0.5 = LOW /\
  _determine_confidence 0.4999 = INSUFFICIENT.
Proof.
  assert (H79 : (0.7 <=? s) = true -> (0.9 <=? s) = false -> (s <? 0.9) = true).
  { intros H7 H9. now apply (FloatOrder.not_leb_ltb 0.7 0.9 s). }
  assert (H57 : (0.5 <=? s) = true -> (0.7 <=? s) = false -> (s <? 0.7) = true).
  { intros H5 H7. now apply (FloatOrder.not_leb_ltb 0.5 0.7 s). }
  assert (L7 : (s <? 0.7) = true -> (0.9 <=? s) = false).
  { intros H. destruct (0.9 <=? s) eqn:H9; [|reflexivity].
    assert (C : (0.9 <? 0.7) = true) by now apply (FloatOrder.leb_ltb_trans _ s).
    discriminate C. }
  unfold _determine_confidence, ge.
  destruct (0.9 <=? s) eqn:H9; [|destruct (0.7 <=? s) eqn:H7;
                                   [|destruct (0.5 <=? s) eqn:H5]].
  - repeat split; try reflexivity; try discriminate; try tauto.
    + intros [_ H]. apply FloatOrder.ltb_not_leb in H. congruence.
    + intros [_ H]. apply L7 in H. congruence.
    + intros [H _]. discriminate.
  - specialize (H79 eq_refl eq_refl).
    repeat split; try reflexivity; try discriminate; try tauto.
    + intros [_ H]. apply FloatOrder.ltb_not_leb in H. congruence.
    + rewrite H79. intros (_ & H & _). discriminate.
  - specialize (H57 eq_refl eq_refl).
    repeat split; try reflexivity; try discriminate; try tauto.
    + intros [H _]. discriminate.
    + rewrite H57. intros (_ & _ & H). discriminate.
  - repeat split; try reflexivity; try discriminate; try tauto.
    + intros [H _]. discriminate.
    + intros [H _]. discriminate.
Qed.

(* ================================================================== *)
(** * Facts about matching *)
(* ================================================================== *)

Module ReFacts.

Import Re.

(** The first element of [findall] is what [search] finds. *)
Lemma hd_findall_from (r : regex) (s : string) (prev : option ascii) :
  hd_error (findall_from r prev O s) = search_from r prev s.
Proof.
  revert prev. induction s as [|c s IH]; intros prev; simpl.
  - now destruct (match_here r prev EmptyString).
  - destruct (match_here r prev (String c s)); [reflexivity|]. apply IH.
Qed.

Lemma hd_findall (pat : pattern) (s : string) (f : flags) :
  hd_error (findall pat s f) = search pat s f.
Proof. apply hd_findall_from. Qed.

Lemma prefix_lower_cons (a c : ascii) (w s : string) :
  prefix (lower (String a w)) (lower (String c s))
  = is_char_i a c && prefix (lower w) (lower s).
Proof.
  unfold is_char_i. cbn [lower prefix].
  destruct (ascii_dec (lower_char a) (lower_char c)) as [E|N].
  - now rewrite E, Ascii.eqb_refl.
  - apply Ascii.eqb_neq in N. now rewrite N.
Qed.

(** A literal under [IGNORECASE] matches here exactly when the lower-cased
    text starts with the lower-cased literal. *)
Lemma match_here_lit (w : string) :
  forall (prev : option ascii) (s : string),
    match_here (lit w IGNORECASE) prev s
    = if prefix (lower w) (lower s) then Some (String.length w) else None.
Proof.
  unfold lit. induction w as [|a w IH]; intros prev s; [now destruct s|].
  cbn [list_ascii_of_string map chr match_here].
  destruct s as [|c s]; [reflexivity|].
  rewrite prefix_lower_cons, IH.
  destruct (is_char_i a c); [|reflexivity].
  now destruct (prefix (lower w) (lower s)).
Qed.

Lemma search_lit (w : string) (s : string) :
  is_match (search (lit w) s IGNORECASE) = contains (lower w) (lower s).
Proof.
  unfold search. generalize (@None ascii) as prev.
  induction s as [|c s IH]; intros prev; cbn [search_from];
    rewrite match_here_lit; cbn [lower contains].
  - now destruct (prefix (lower w) EmptyString).
  - destruct (prefix (lower w) (String (lower_char c) (lower s)));
      [reflexivity|]. apply IH.
Qed.

Lemma rep_zero_total (p : ascii -> bool) (s : string) :
  forall prev, exists n, rep (fun _ _ => Some O) p 0 prev s = Some n.
Proof.
  induction s as [|c s IH]; intros prev; cbn [rep pred]; [now exists O|].
  destruct (p c); [|now exists O].
  destruct (IH (Some c)) as [n ->]. now exists (S n).
Qed.

(** [p+] matches here exactly when the next character is in [p]. *)
Lemma match_here_plus (p : ascii -> bool) (prev : option ascii) (s : string) :
  match s with
  | String c _ =>
      if p c then exists n, match_here (plus p NOFLAG) prev s = Some (S n)
      else match_here (plus p NOFLAG) prev s = None
  | EmptyString => match_here (plus p NOFLAG) prev s = None
  end.
Proof.
  destruct s as [|c s]; [reflexivity|].
  cbn [plus match_here rep pred]. destruct (p c); [|reflexivity].
  destruct (rep_zero_total p s (Some c)) as [n ->]. now exists n.
Qed.

Lemma split_from_length (r : regex) (s : string) :
  forall prev skip cur, (1 <= List.length (split_from r prev skip cur s))%nat.
Proof.
  induction s as [|c s IH]; intros prev skip cur; cbn [split_from].
  - destruct skip; [destruct (match_here r prev EmptyString) as [[|n]|]|]; cbn; lia.
  - destruct skip; [|apply IH].
    destruct (match_here r prev (String c s)) as [[|n]|]; try apply IH.
    cbn [List.length]. specialize (IH (Some c) n EmptyString). lia.
Qed.

(** Splitting on [p+] gives more than one piece exactly when some character
    of the text is in [p]. *)
Lemma split_plus_pieces (p : ascii -> bool) (s : string) :
  forall prev cur,
    (1 <? List.length (split_from (plus p NOFLAG) prev 0 cur s))%nat
    = has_char p s.
Proof.
  induction s as [|c s IH]; intros prev cur.
  - reflexivity.
  - pose proof (match_here_plus p prev (String c s)) as M. cbn beta iota in M.
    cbn [split_from has_char].
    destruct (p c).
    + destruct M as [n ->]. cbn [List.length orb].
      pose proof (split_from_length (plus p NOFLAG) s (Some c) n EmptyString).
      apply Nat.ltb_lt. lia.
    + rewrite M. cbn [orb]. apply IH.
Qed.

(** On sentence-terminal punctuation: more than one segment exactly when
    the text holds a full stop, an exclamation mark or a question mark. *)
Lemma split_sentence_end (s : string) :
  (1 <? List.length (split sentence_end s))%nat = has_char is_terminal s.
Proof. apply split_plus_pieces. Qed.

Lemma match_here_lit_then (w : string) (r : regex) :
  forall (prev : option ascii) (s : string),
    match_here (lit w IGNORECASE ++ r) prev s
    = if prefix (lower w) (lower s)
      then let '(prev', s') := advance (String.length w) prev s in
           option_map (Nat.add (String.length w)) (match_here r prev' s')
      else None.
Proof.
  unfold lit. induction w as [|a w IH]; intros prev s.
  - cbn [list_ascii_of_string map app String.length advance].
    replace (prefix (lower EmptyString) (lower s)) with true by now destruct s.
    now destruct (match_here r prev s).
  - cbn [list_ascii_of_string map app chr match_here].
    destruct s as [|c s]; [reflexivity|].
    rewrite prefix_lower_cons, IH. cbn [String.length advance].
    destruct (is_char_i a c); [|reflexivity].
    destruct (prefix (lower w) (lower s)); [|reflexivity].
    destruct (advance (String.length w) (Some c) s) as [prev' s'].
    now destruct (match_here r prev' s').
Qed.

Lemma match_here_whole_word (w : string) (prev : option ascii) (s : string) :
  match_here (whole_word w IGNORECASE) prev s
  = if whole_word_here w prev s then Some (String.length w) else None.
Proof.
  unfold whole_word, seq, whole_word_here, boundary.
  cbn [map List.concat wordb app match_here].
  destruct (xorb (word_before prev) (word_after s)); [|reflexivity].
  rewrite ?app_nil_r, match_here_lit_then. cbn [andb].
  destruct (prefix (lower w) (lower s)); [|reflexivity]. cbn [andb].
  destruct (advance (String.length w) prev s) as [prev' s'].
  cbn [match_here].
  destruct (xorb (word_before prev') (word_after s')); [|reflexivity].
  cbn [option_map]. now rewrite Nat.add_0_r.
Qed.

(** [occurs]: the word stands as a whole word somewhere in the text. *)
Lemma occurs_whole_word (output w : string) :
  occurs output w = whole_word_in w None output.
Proof.
  unfold occurs, search. generalize (@None ascii) as prev.
  induction output as [|c s IH]; intros prev; cbn [search_from whole_word_in];
    rewrite match_here_whole_word.
  - now destruct (whole_word_here w prev EmptyString).
  - destruct (whole_word_here w prev (String c s)); [reflexivity|]. apply IH.
Qed.

End ReFacts.

(* ================================================================== *)
(** * Loops *)
(* ================================================================== *)

Section Loops.

Context {A : Type}.

Lemma for_each_ext {S : Type} (body body' : S -> A -> result S) (l : list A) :
  (forall s x, body s x = body' s x) ->
  forall s, for_each l body s = for_each l body' s.
Proof.
  intros E. induction l as [|x l IH]; intros s; simpl; [reflexivity|].
  rewrite E. destruct (body' s x); simpl; auto.
Qed.

(** A loop that deducts [d] and appends a warning for every element
    passing [test]. *)
Lemma for_each_deduct (test : A -> bool) (msg : A -> string) (d : float)
    (l : list A) :
  forall (s : float) (w : list string),
    for_each l
      (fun '(score, warnings) x =>
         if test x then Ok (score - d, warnings ++ [msg x])
         else Ok (score, warnings))
      (s, w)
    = Ok (deduct d (List.length (filter test l)) s,
          w ++ map msg (filter test l)).
Proof.
  induction l as [|x l IH]; intros s w; simpl.
  - now rewrite app_nil_r.
  - destruct (test x); simpl; rewrite IH; [|reflexivity].
    now rewrite <- app_assoc.
Qed.

(** A loop that adds up a count. *)
Lemma for_each_count (count : A -> nat) (l : list A) :
  forall n : nat,
    for_each l (fun total x => Ok (total + count x)%nat) n
    = Ok (n + list_sum (map count l))%nat.
Proof.
  induction l as [|x l IH]; intros n; simpl.
  - now rewrite Nat.add_0_r.
  - rewrite IH. now rewrite Nat.add_assoc.
Qed.

End Loops.

(* ================================================================== *)
(** * The detectors compute what is expected *)
(* ================================================================== *)

Lemma clamp_bounds (x : float) :
  (0.0 <=? clamp x) = true /\ (clamp x <=? 1.0) = true.
Proof.
  unfold clamp, max, min.
  destruct (x <? 1.0) eqn:H1.
  - destruct (0.0 <? x) eqn:H0; split;
      auto using FloatOrder.ltb_leb.
  - split; reflexivity.
Qed.

Lemma rules_factual :
  getitem _load_validation_rules "factual_patterns"
  = Ok (rules "factual_patterns").
Proof. reflexivity. Qed.

Lemma rules_uncertainty :
  getitem _load_validation_rules "uncertainty_indicators"
  = Ok (rules "uncertainty_indicators").
Proof. reflexivity. Qed.

Lemma rules_citation :
  getitem _load_validation_rules "citation_patterns"
  = Ok (rules "citation_patterns").
Proof. reflexivity. Qed.

(** Adding the bonus of a text without hedges changes nothing. *)
Lemma no_hedge_bonus (n : nat) :
  (n <= 5)%nat ->
  deduct 0.2 n 1.0 + min (float_of_len 0 * 0.1) 0.3 = deduct 0.2 n 1.0.
Proof.
  intros H.
  do 6 (destruct n as [|n]; [reflexivity|]). lia.
Qed.

(** One turn of the factual loop. *)
Lemma factual_body (output : string) (pattern : Re.pattern)
    (s : float) (w : list string) :
  (let matches := Re.findall pattern output Re.IGNORECASE in
   if truthy matches then
     m0 <- subscript matches 0 ;;
     Ok (s - 0.2,
         w ++ [("Unsupported factual claim detected: " ++ m0)%string])
   else Ok (s, w))
  = if matches output pattern
    then Ok (s - 0.2,
             w ++ [("Unsupported factual claim detected: "
                    ++ first_match output pattern)%string])
    else Ok (s, w).
Proof.
  unfold matches, first_match.
  rewrite <- ReFacts.hd_findall.
  now destruct (Re.findall pattern output Re.IGNORECASE).
Qed.

Lemma factual_claims_run (cfg : option Config) (output : string) :
  _validate_factual_claims (__init__ cfg) output
  = Ok (spec_factual_claims output).
Proof.
  unfold _validate_factual_claims, spec_factual_claims.
  change (validation_rules (__init__ cfg)) with _load_validation_rules.
  rewrite rules_factual, rules_uncertainty. cbn [bind].
  rewrite (for_each_ext _
             (fun '(score, warnings) x =>
                if matches output x
                then Ok (score - 0.2,
                         warnings ++ [("Unsupported factual claim detected: "
                                       ++ first_match output x)%string])
                else Ok (score, warnings)))
    by (intros [s w] x; apply factual_body).
  rewrite for_each_deduct. cbn [bind].
  rewrite (for_each_count (match_count output)). cbn [bind].
  rewrite Nat.add_0_l, app_nil_l.
  destruct (list_sum _) as [|n] eqn:E; [|reflexivity].
  cbn [Nat.ltb Nat.leb]. rewrite no_hedge_bonus; [reflexivity|].
  apply (filter_length_le (matches output) (rules "factual_patterns")).
Qed.

Lemma logical_consistency_run (cfg : option Config) (output : string) :
  _validate_logical_consistency (__init__ cfg) output
  = Ok (spec_logical_consistency output).
Proof.
  unfold _validate_logical_consistency, spec_logical_consistency.
  rewrite (for_each_ext _
             (fun '(score, warnings) pair =>
                if both_occur output pair
                then Ok (score - 0.3,
                         warnings ++ [("Potential contradiction detected: "
                                       ++ fst pair ++ " vs " ++ snd pair)%string])
                else Ok (score, warnings)))
    by (intros [s w] [pos neg]; reflexivity).
  rewrite for_each_deduct. cbn [bind]. rewrite app_nil_l.
  change (Re.plus (Re.any_of [Re.is_char "."; Re.is_char "!"; Re.is_char "?"]))
    with sentence_end.
  fold contradiction_pairs transition_words.
  unfold has_flow.
  destruct (1 <? List.length (Re.split sentence_end output))%nat;
    [|reflexivity].
  now destruct (existsb _ transition_words).
Qed.

Lemma source_attribution_run (cfg : option Config) (output : string) :
  _validate_source_attribution (__init__ cfg) output
  = Ok (spec_source_attribution output).
Proof.
  unfold _validate_source_attribution, spec_source_attribution.
  change (validation_rules (__init__ cfg)) with _load_validation_rules.
  rewrite rules_citation. cbn [bind].
  fold (matches output) bracketed. fold (has_citations output).
  destruct (has_citations output); cbn [negb].
  - rewrite (for_each_deduct (fun span => (String.length span <? 5)%nat)
               (fun span => ("Incomplete citation: " ++ span)%string)).
    cbn [bind]. now rewrite app_nil_l.
  - reflexivity.
Qed.

(** What [validate] returns, in terms of the enabled detectors. *)
Lemma validate_run (cfg : option Config) (now : Z) (output : string)
    (context : option string) (mode : string) :
  let c := config (__init__ cfg) in
  let runs := enabled_runs c output in
  validate (__init__ cfg) now output context mode
  = Ok {| is_valid := ge (weighted_sum runs) (threshold_of c);
          confidence := _determine_confidence (weighted_sum runs);
          score := weighted_sum runs;
          details := details_of runs;
          warnings := limit_warnings (max_warnings_of c) (all_warnings runs);
          timestamp := now;
          validation_type := mode |}.
Proof.
  intros c runs. subst runs. unfold validate, enabled_runs.
  rewrite factual_claims_run, logical_consistency_run, source_attribution_run.
  fold c.
  destruct (spec_factual_claims output) as [fs fw],
           (spec_logical_consistency output) as [ls lw],
           (spec_source_attribution output) as [ss sw].
  destruct (get (enable_factual_validation c) true),
           (get (enable_logical_consistency c) true),
           (get (enable_source_attribution c) true);
    cbn; rewrite ?app_nil_r, <- ?app_assoc; reflexivity.
Qed.

(* ================================================================== *)
(** * Properties of the engine *)
(* ================================================================== *)

(** C1. For every text and every configuration, the aggregate score
    returned by [validate] is the sum, accumulated from 0.0 in the order
    factual, logical, source, of sub-score times weight over the enabled
    detectors, with the weights 0.4, 0.3 and 0.3 and no clamping after the
    weighting; [is_valid] holds exactly when that score is at least the
    configured [confidence_threshold]. *)
Theorem validate_score_weighted_sum (cfg : option Config) (now : Z)
    (output : string) (context : option string) (mode : string) :
  let c := config (__init__ cfg) in
  let f := fst (spec_factual_claims output) in
  let l := fst (spec_logical_consistency output) in
  let s := fst (spec_source_attribution output) in
  _validate_factual_claims (__init__ cfg) output
    = Ok (spec_factual_claims output) /\
  _validate_logical_consistency (__init__ cfg) output
    = Ok (spec_logical_consistency output) /\
  _validate_source_attribution (__init__ cfg) output
    = Ok (spec_source_attribution output) /\
  exists r : ValidationResult,
    validate (__init__ cfg) now output context mode = Ok r /\
    score r = weighted_sum (enabled_runs c output) /\
    score r =
      (let t0 := 0.0 in
       let t1 := if get (enable_factual_validation c) true
                 then t0 + f * 0.4 else t0 in
       let t2 := if get (enable_logical_consistency c) true
                 then t1 + l * 0.3 else t1 in
       if get (enable_source_attribution c) true then t2 + s * 0.3 else t2) /\
    (is_valid r = true <->
     (get (confidence_threshold c) 0.7 <=? score r) = true).
Proof.
  intros c f l s.
  rewrite factual_claims_run, logical_consistency_run, source_attribution_run.
  repeat split.
  eexists. split; [apply validate_run|]. fold c. cbn [score is_valid].
  split; [reflexivity|]. split; [|reflexivity].
  unfold enabled_runs, weighted_sum. subst f l s.
  destruct (get (enable_factual_validation c) true),
           (get (enable_logical_consistency c) true),
           (get (enable_source_attribution c) true);
    reflexivity.
Qed.

(** C2. The confidence tier of the result [validate] returns is a
    function of its aggregate score [s]: HIGH exactly when [s >= 0.9],
    MEDIUM exactly when [0.7 <= s < 0.9], LOW exactly when
    [0.5 <= s < 0.7] and INSUFFICIENT in every other case, with each lower
    bound included: the tiers of the scores 0.9, 0.7, 0.5 and 0.4999 are
    HIGH, MEDIUM, LOW and INSUFFICIENT. *)
Theorem validate_confidence_tiers (cfg : option Config) (now : Z)
    (output : string) (context : option string) (mode : string) :
  (exists r : ValidationResult,
     validate (__init__ cfg) now output context mode = Ok r /\
     confidence r = _determine_confidence (score r) /\
     (confidence r = HIGH <-> (0.9 <=? score r) = true) /\
     (confidence r = MEDIUM <->
        (0.7 <=? score r) = true /\ (score r <? 0.9) = true) /\
     (confidence r = LOW <->
        (0.5 <=? score r) = true /\ (score r <? 0.7) = true) /\
     (confidence r = INSUFFICIENT <->
        (0.9 <=? score r) = false /\
        ((0.7 <=? score r) && (score r <? 0.9) = false) /\
        ((0.5 <=? score r) && (score r <? 0.7) = false))) /\
  (forall s : float,
     (_determine_confidence s = HIGH <-> (0.9 <=? s) = true) /\
     (_determine_confidence s = MEDIUM <->
        (0.7 <=? s) = true /\ (s <? 0.9) = true) /\
     (_determine_confidence s = LOW <->
        (0.5 <=? s) = true /\ (s <? 0.7) = true) /\
     (_determine_confidence s = INSUFFICIENT <->
        (0.9 <=? s) = false /\
        ((0.7 <=? s) && (s <? 0.9) = false) /\
        ((0.5 <=? s) && (s <? 0.7) = false))) /\
  _determine_confidence 0.9 = HIGH /\
  _determine_confidence 0.7 = MEDIUM /\
  _determine_confidence 0.5 = LOW /\
  _determine_confidence 0.4999 = INSUFFICIENT.
Proof.
  split.
  - eexists. split; [apply validate_run|].
    cbn [confidence score]. split; [reflexivity|].
    destruct (determine_confidence_tiers
                (weighted_sum (enabled_runs (config (__init__ cfg)) output)))
      as (H & M & L & I & _).
    split; [exact H|]. split; [exact M|]. split; [exact L|exact I].
  - split.
    + intros s. destruct (determine_confidence_tiers s) as (H & M & L & I & _).
      split; [exact H|]. split; [exact M|]. split; [exact L|exact I].
    + repeat split.
Qed.

(** C3. The mode does not influence the verdict: for every text, context
    and configuration, two calls with modes [m1] and [m2] agree on
    [is_valid], [confidence], [score], [details] and [warnings]; each
    result echoes its own mode and carries its own clock reading. *)
Theorem validate_mode_independent (cfg : option Config) (now1 now2 : Z)
    (output : string) (context : option string) (m1 m2 : string) :
  exists r1 r2 : ValidationResult,
    validate (__init__ cfg) now1 output context m1 = Ok r1 /\
    validate (__init__ cfg) now2 output context m2 = Ok r2 /\
    is_valid r1 = is_valid r2 /\
    confidence r1 = confidence r2 /\
    score r1 = score r2 /\
    details r1 = details r2 /\
    warnings r1 = warnings r2 /\
    validation_type r1 = m1 /\ validation_type r2 = m2 /\
    timestamp r1 = now1 /\ timestamp r2 = now2.
Proof.
  do 2 eexists.
  split; [apply validate_run|]. split; [apply validate_run|].
  cbn. repeat split.
Qed.

(** The slice [ws[:k]] of a list longer than [k >= 0]. *)
Lemma slice_to_firstn (ws : list string) (k : Z) :
  (0 <= k)%Z -> slice_to ws k = firstn (Z.to_nat k) ws.
Proof.
  intros H. unfold slice_to.
  destruct (0 <=? k)%Z eqn:E; [reflexivity|]. lia.
Qed.

(** C4 (as amended: for a limit [k >= 0]). When the enabled detectors
    produce more than [k = max_warnings] warnings, the returned list has
    [k + 1] entries: the first [k] of the concatenation (factual, logical,
    source) followed by one summary whose count is the length of the
    truncated list minus [k], that is 0, and not the number of omitted
    warnings, which is positive. *)
Theorem validate_truncates_warnings (cfg : option Config) (now : Z)
    (output : string) (context : option string) (mode : string) :
  let c := config (__init__ cfg) in
  let k := get (max_warnings c) 10%Z in
  let all := all_warnings (enabled_runs c output) in
  (0 <= k)%Z ->
  (k < Z.of_nat (List.length all))%Z ->
  exists r : ValidationResult,
    validate (__init__ cfg) now output context mode = Ok r /\
    Z.of_nat (List.length (warnings r)) = (k + 1)%Z /\
    firstn (Z.to_nat k) (warnings r) = firstn (Z.to_nat k) all /\
    skipn (Z.to_nat k) (warnings r)
      = [summary (Z.of_nat (List.length (firstn (Z.to_nat k) all)) - k)] /\
    skipn (Z.to_nat k) (warnings r) = ["... and 0 more warnings"%string] /\
    (0 < Z.of_nat (List.length all) - k)%Z.
Proof.
  intros c k all Hk Hw.
  eexists. split; [apply validate_run|]. cbn [warnings].
  fold c. unfold max_warnings_of. fold k all. unfold limit_warnings.
  replace (Z.of_nat (List.length all) >? k)%Z with true
    by (symmetry; apply Z.gtb_lt; lia).
  rewrite slice_to_firstn by assumption.
  assert (L : List.length (firstn (Z.to_nat k) all) = Z.to_nat k).
  { apply firstn_length_le. lia. }
  rewrite length_app, L. cbn [List.length].
  split; [lia|].
  split.
  { rewrite firstn_app, L, Nat.sub_diag. cbn [firstn].
    rewrite app_nil_r, firstn_firstn. now rewrite Nat.min_id. }
  assert (K : forall x : string,
             skipn (Z.to_nat k) (firstn (Z.to_nat k) all ++ [x]) = [x]).
  { intros x. rewrite skipn_app, L, Nat.sub_diag. cbn [skipn].
    rewrite <- L at 1. now rewrite skipn_all. }
  rewrite K.
  replace (Z.of_nat (Z.to_nat k) - k)%Z with 0%Z by lia.
  repeat split. lia.
Qed.

(** The amended C4 at the limit 2, on a text with seven warnings. *)
Lemma validate_truncates_warnings_witness :
  exists r : ValidationResult,
    validate (__init__ (Some limit_two)) 0 busy_text None "comprehensive" = Ok r /\
    Z.of_nat (List.length (warnings r)) = (2 + 1)%Z /\
    firstn 2 (warnings r)
      = firstn 2 (all_warnings (enabled_runs limit_two busy_text)) /\
    skipn 2 (warnings r) = [summary 0] /\
    skipn 2 (warnings r) = ["... and 0 more warnings"%string] /\
    (0 < 7 - 2)%Z.
Proof.
  apply (validate_truncates_warnings (Some limit_two) 0 busy_text None
           "comprehensive").
  - vm_compute. discriminate.
  - vm_compute. reflexivity.
Defined.

(** C4 as stated fails for a negative limit: with [max_warnings = -1] the
    empty text produces one warning, more than the limit, and the returned
    list has one entry, not [-1 + 1 = 0]. *)
Lemma truncation_negative_limit :
  get (max_warnings (config (__init__ (Some limit_minus_one)))) 10%Z = (-1)%Z /\
  (Z.of_nat (List.length (all_warnings (enabled_runs limit_minus_one empty_text)))
   > -1)%Z /\
  exists r : ValidationResult,
    validate (__init__ (Some limit_minus_one)) 0 empty_text None "comprehensive" = Ok r /\
    warnings r = ["... and 1 more warnings"%string] /\
    Z.of_nat (List.length (warnings r)) <> (-1 + 1)%Z.
Proof.
  split; [reflexivity|]. split; [reflexivity|].
  eexists. split; [vm_compute; reflexivity|].
  split; [reflexivity|]. discriminate.
Qed.

(** C5. For every text the factual-claim detector returns the clamp to
    [0.0, 1.0] of 1.0, minus 0.2 for each factual pattern that matches the
    text case-insensitively, plus [min(0.1 * count, 0.3)] for the total
    number [count] of matches of the uncertainty indicators, together with
    one warning per matching factual pattern that quotes its first match.
    (A literal pattern matches case-insensitively when its lower-cased text
    is a substring of the lower-cased text.) *)
Theorem factual_claims_closed_form (cfg : option Config) (output : string) :
  let hits := filter (matches output) (rules "factual_patterns") in
  let count :=
    list_sum (map (fun p => List.length (Re.findall p output Re.IGNORECASE))
                  (rules "uncertainty_indicators")) in
  _validate_factual_claims (__init__ cfg) output
  = Ok (clamp (deduct 0.2 (List.length hits) 1.0
               + min (float_of_len count * 0.1) 0.3),
        map (fun p => ("Unsupported factual claim detected: "
                       ++ first_match output p)%string) hits)
  /\ (forall p, matches output p = true <->
                hd_error (Re.findall p output Re.IGNORECASE)
                = Some (first_match output p))
  /\ (forall w, matches output (Re.lit w) = contains (lower w) (lower output)).
Proof.
  split; [apply factual_claims_run|]. split.
  - intros p. unfold matches, first_match. rewrite ReFacts.hd_findall.
    destruct (Re.search p output Re.IGNORECASE); cbn; split; congruence.
  - intros w. apply ReFacts.search_lit.
Qed.

(** C6. For every text the logical-consistency detector returns the clamp
    to [0.0, 1.0] of 1.0, minus 0.3 for each of the pairs (always, never),
    (all, none), (every, no), (completely, partially) whose two words both
    occur as whole words, case-insensitively, plus a flat 0.1 exactly when
    the split on sentence-terminal punctuation has more than one segment and
    one of however, therefore, moreover, furthermore, additionally is a
    substring of the lower-cased text; each such pair yields one warning
    naming it.  (There is more than one segment exactly when the text holds
    a terminal punctuation mark.) *)
Theorem logical_consistency_closed_form (cfg : option Config) (output : string) :
  let hits :=
    filter (fun pair => whole_word_in (fst pair) None output
                        && whole_word_in (snd pair) None output)
           [ ("always", "never"); ("all", "none"); ("every", "no");
             ("completely", "partially") ] in
  let segments := Re.split sentence_end output in
  let flow :=
    (1 <? List.length segments)%nat
    && existsb (fun word => contains word (lower output))
               ["however"; "therefore"; "moreover"; "furthermore";
                "additionally"] in
  _validate_logical_consistency (__init__ cfg) output
  = Ok (clamp (if flow
               then deduct 0.3 (List.length hits) 1.0 + 0.1
               else deduct 0.3 (List.length hits) 1.0),
        map (fun pair => ("Potential contradiction detected: " ++ fst pair
                          ++ " vs " ++ snd pair)%string) hits)
  /\ (1 <? List.length segments)%nat = has_char is_terminal output.
Proof.
  split; [|apply ReFacts.split_sentence_end].
  rewrite logical_consistency_run.
  unfold spec_logical_consistency, has_flow.
  rewrite (filter_ext (both_occur output)
             (fun pair => whole_word_in (fst pair) None output
                          && whole_word_in (snd pair) None output));
    [reflexivity|].
  intros [pos neg]. unfold both_occur.
  now rewrite !ReFacts.occurs_whole_word.
Qed.

(** C7. For every text the source-attribution detector emits the
    missing-citations warning and subtracts 0.4 exactly when no citation
    pattern matches the text case-insensitively; exactly when one matches it
    subtracts 0.1 and emits an incomplete-citation warning for every
    bracketed span shorter than 5 characters, whichever citation pattern
    matched; the sub-score is the clamp of the total to [0.0, 1.0]. *)
Theorem source_attribution_closed_form (cfg : option Config) (output : string) :
  exists (s : float) (ws : list string),
    _validate_source_attribution (__init__ cfg) output = Ok (s, ws) /\
    (In missing_citations ws <-> has_citations output = false) /\
    (has_citations output = false ->
       s = clamp (1.0 - 0.4) /\ ws = [missing_citations]) /\
    (has_citations output = true ->
       s = clamp (deduct 0.1 (List.length (short_spans output)) 1.0) /\
       ws = map (fun span => ("Incomplete citation: " ++ span)%string)
                (short_spans output)).
Proof.
  do 2 eexists. split.
  { rewrite source_attribution_run. apply f_equal, surjective_pairing. }
  unfold spec_source_attribution.
  destruct (has_citations output); cbn [fst snd].
  - split; [|split; [discriminate|auto]].
    split; [|discriminate].
    intros H. apply in_map_iff in H. destruct H as (span & E & _).
    discriminate E.
  - split; [|split; [auto|discriminate]].
    split; [reflexivity|]. intros _. now left.
Qed.

(** C7, with a citation and two short spans. *)
Lemma source_attribution_closed_form_witness :
  exists (s : float) (ws : list string),
    _validate_source_attribution (__init__ None) busy_text = Ok (s, ws) /\
    has_citations busy_text = true /\
    s = clamp (deduct 0.1 2 1.0) /\
    ws = ["Incomplete citation: [1]"%string; "Incomplete citation: []"%string].
Proof.
  destruct (source_attribution_closed_form None busy_text)
    as (s & ws & E & _ & _ & H).
  exists s, ws. split; [exact E|]. split; [reflexivity|].
  apply H. reflexivity.
Defined.

(** C8. [validate] is total: for every text, context, mode and
    configuration it returns a result and raises nothing; the sub-score each
    detector returns lies in [0.0, 1.0]. *)
Theorem validate_total (cfg : option Config) (now : Z) (output : string)
    (context : option string) (mode : string) :
  (exists r : ValidationResult,
     validate (__init__ cfg) now output context mode = Ok r) /\
  (exists (s : float) (ws : list string),
     _validate_factual_claims (__init__ cfg) output = Ok (s, ws) /\
     (0.0 <=? s) = true /\ (s <=? 1.0) = true) /\
  (exists (s : float) (ws : list string),
     _validate_logical_consistency (__init__ cfg) output = Ok (s, ws) /\
     (0.0 <=? s) = true /\ (s <=? 1.0) = true) /\
  (exists (s : float) (ws : list string),
     _validate_source_attribution (__init__ cfg) output = Ok (s, ws) /\
     (0.0 <=? s) = true /\ (s <=? 1.0) = true).
Proof.
  split; [eexists; apply validate_run|].
  rewrite factual_claims_run, logical_consistency_run, source_attribution_run.
  repeat split.
  - exists (fst (spec_factual_claims output)), (snd (spec_factual_claims output)).
    split; [apply f_equal, surjective_pairing|]. apply clamp_bounds.
  - exists (fst (spec_logical_consistency output)),
           (snd (spec_logical_consistency output)).
    split; [apply f_equal, surjective_pairing|]. apply clamp_bounds.
  - exists (fst (spec_source_attribution output)),
           (snd (spec_source_attribution output)).
    split; [apply f_equal, surjective_pairing|].
    unfold spec_source_attribution.
    destruct (has_citations output); apply clamp_bounds.
Qed.

(** C9. On the text "According to recent studies, the sky is always blue
    everywhere on Earth." the default configuration yields one factual-claim
    warning, from the according-to pattern; no contradiction warning, since
    "always" occurs and "never" does not; and no source-attribution warning,
    the missing-citations one included, since "according to" is itself a
    citation pattern. *)
Theorem sky_text_warnings (now : Z) (context : option string) (mode : string) :
  _validate_factual_claims (__init__ None) sky_text
    = Ok (0.8, ["Unsupported factual claim detected: According to recent studies,"%string]) /\
  occurs sky_text "always" = true /\
  occurs sky_text "never" = false /\
  _validate_logical_consistency (__init__ None) sky_text = Ok (1.0, []) /\
  matches sky_text (Re.lit "according to") = true /\
  In (Re.lit "according to") (rules "citation_patterns") /\
  has_citations sky_text = true /\
  _validate_source_attribution (__init__ None) sky_text = Ok (1.0, []) /\
  exists r : ValidationResult,
    validate (__init__ None) now sky_text context mode = Ok r /\
    warnings r
      = ["Unsupported factual claim detected: According to recent studies,"%string] /\
    ~ In missing_citations (warnings r) /\
    details r
      = [ ("factual_validation",
           {| detail_score := 0.8; detail_warnings := 1 |});
          ("logical_consistency",
           {| detail_score := 1.0; detail_warnings := 0 |});
          ("source_attribution",
           {| detail_score := 1.0; detail_warnings := 0 |}) ].
Proof.
  do 5 (split; [vm_compute; reflexivity|]).
  split; [do 4 right; left; reflexivity|].
  do 2 (split; [vm_compute; reflexivity|]).
  eexists. split; [vm_compute; reflexivity|].
  cbn [warnings details].
  split; [reflexivity|]. split; [|reflexivity].
  intros [H|[]]. discriminate H.
Qed.

(** Two floats that [=?] tells apart are different. *)
Lemma eqb_false_neq (x y : float) : (x =? y) = false -> (y =? y) = true -> x <> y.
Proof. intros H R E. rewrite E, R in H. discriminate. Qed.

(** C10 as stated fails in one place: the aggregate score of the empty
    text under the default configuration is 0.8799999999999999, which is
    not the float 0.88. *)
Lemma empty_text_score_not_088 :
  exists r : ValidationResult,
    validate (__init__ None) 0 empty_text None "comprehensive" = Ok r /\
    score r = 0.8799999999999999 /\
    (score r =? 0.88) = false /\
    score r <> 0.88.
Proof.
  eexists. split; [vm_compute; reflexivity|]. cbn [score].
  split; [reflexivity|]. split; [reflexivity|].
  now apply eqb_false_neq.
Qed.

(** C10 (as amended: the score is 0.8799999999999999). Under the default
    configuration the empty text gets exactly one warning, the
    missing-citations one, the sub-scores 1.0, 1.0 and 0.6, the aggregate
    score 0.4 + 0.3 + 0.6 * 0.3 = 0.8799999999999999 in binary64 (just below
    0.88), the tier MEDIUM, and is valid. *)
Theorem empty_text_is_valid (now : Z) (context : option string) (mode : string) :
  validate (__init__ None) now empty_text context mode
  = Ok {| is_valid := true;
          confidence := MEDIUM;
          score := 0.8799999999999999;
          details :=
            [ ("factual_validation",
               {| detail_score := 1.0; detail_warnings := 0 |});
              ("logical_consistency",
               {| detail_score := 1.0; detail_warnings := 0 |});
              ("source_attribution",
               {| detail_score := 0.6; detail_warnings := 1 |}) ];
          warnings := ["No citations or source attributions found"%string];
          timestamp := now;
          validation_type := mode |}
  /\ get (confidence_threshold (config (__init__ None))) 0.7 = 0.7
  /\ 0.0 + 1.0 * 0.4 + 1.0 * 0.3 + 0.6 * 0.3 = 0.8799999999999999
  /\ (0.8799999999999999 <? 0.88) = true
  /\ (0.7 <=? 0.8799999999999999) = true.
Proof. repeat split. Qed.

(* ================================================================== *)
(** * Further properties of the engine *)
(* ================================================================== *)

(** [validate] reads the configuration only through its five entries. *)
Lemma validate_config_ext (a b : option Config) (now : Z) (output : string)
    (context : option string) (mode : string) :
  let ca := config (__init__ a) in
  let cb := config (__init__ b) in
  get (enable_factual_validation ca) true
    = get (enable_factual_validation cb) true ->
  get (enable_logical_consistency ca) true
    = get (enable_logical_consistency cb) true ->
  get (enable_source_attribution ca) true
    = get (enable_source_attribution cb) true ->
  get (confidence_threshold ca) 0.7 = get (confidence_threshold cb) 0.7 ->
  get (max_warnings ca) 10%Z = get (max_warnings cb) 10%Z ->
  validate (__init__ a) now output context mode
  = validate (__init__ b) now output context mode.
Proof.
  intros ca cb F L S T M. rewrite !validate_run.
  fold ca cb. unfold enabled_runs, threshold_of, max_warnings_of.
  now rewrite F, L, S, T, M.
Qed.

Lemma config_update_default_get (c : Config) :
  let d := config (__init__ (Some (config_update _default_config c))) in
  let e := config (__init__ (Some c)) in
  get (enable_factual_validation d) true
    = get (enable_factual_validation e) true /\
  get (enable_logical_consistency d) true
    = get (enable_logical_consistency e) true /\
  get (enable_source_attribution d) true
    = get (enable_source_attribution e) true /\
  get (confidence_threshold d) 0.7 = get (confidence_threshold e) 0.7 /\
  get (max_warnings d) 10%Z = get (max_warnings e) 10%Z.
Proof.
  destruct c as [[t|] [f|] [l|] [s|] [m|]]; cbn; repeat split.
Qed.

Lemma validate_with_defaults (c : Config) (now : Z) (output : string)
    (context : option string) (mode : string) :
  validate (__init__ (Some c)) now output context mode
  = validate (__init__ (Some (config_update _default_config c)))
      now output context mode.
Proof.
  destruct (config_update_default_get c) as (F & L & S & T & M).
  symmetry. now apply validate_config_ext.
Qed.

(** X1. A configuration dict that sets only some keys behaves as the
    default configuration with those keys replaced; the empty dict and no
    dict at all behave as the default configuration. *)
Theorem partial_config_overrides_defaults (c : Config) (now : Z)
    (output : string) (context : option string) (mode : string) :
  validate (__init__ (Some c)) now output context mode
  = validate (__init__ (Some (config_update _default_config c)))
      now output context mode
  /\ validate (__init__ (Some no_config)) now output context mode
     = validate (__init__ (Some _default_config)) now output context mode
  /\ validate (__init__ None) now output context mode
     = validate (__init__ (Some _default_config)) now output context mode.
Proof.
  split; [apply validate_with_defaults|split; reflexivity].
Qed.

(** X2. With a limit [k >= 0] the returned list holds [min(w, k + 1)]
    warnings, [w] being the number the enabled detectors produced; when
    [w <= k] it is their list unchanged, without a summary entry. *)
Theorem warnings_count (cfg : option Config) (now : Z) (output : string)
    (context : option string) (mode : string) :
  let c := config (__init__ cfg) in
  let k := get (max_warnings c) 10%Z in
  let all := all_warnings (enabled_runs c output) in
  (0 <= k)%Z ->
  exists r : ValidationResult,
    validate (__init__ cfg) now output context mode = Ok r /\
    List.length (warnings r) = Nat.min (List.length all) (Z.to_nat k + 1) /\
    ((Z.of_nat (List.length all) <= k)%Z -> warnings r = all).
Proof.
  intros c k all Hk.
  eexists. split; [apply validate_run|]. cbn [warnings].
  fold c. unfold max_warnings_of. fold k all. unfold limit_warnings.
  destruct (Z.of_nat (List.length all) >? k)%Z eqn:E.
  - apply Z.gtb_lt in E. rewrite slice_to_firstn by assumption.
    rewrite length_app, firstn_length_le by lia. cbn [List.length].
    split; lia.
  - assert (Z.of_nat (List.length all) <= k)%Z.
    { destruct (Z.gtb_spec (Z.of_nat (List.length all)) k); [discriminate|lia]. }
    split; [lia|reflexivity].
Qed.

(** X2 at the default limit, on a text with seven warnings. *)
Lemma warnings_count_witness :
  exists r : ValidationResult,
    validate (__init__ None) 0 busy_text None "quick" = Ok r /\
    List.length (warnings r) = 7%nat /\
    ((7 <= 10)%Z -> warnings r = all_warnings (enabled_runs _default_config busy_text)).
Proof.
  apply (warnings_count None 0 busy_text None "quick").
  vm_compute. discriminate.
Defined.

(** X3. [details] has one entry per enabled detector, in the order
    factual, logical, source, and none for a disabled one; each entry
    carries the detector's own sub-score, and the warning counts are those
    before truncation: they add up to the number of warnings produced. *)
Theorem details_of_enabled_detectors (cfg : option Config) (now : Z)
    (output : string) (context : option string) (mode : string) :
  let c := config (__init__ cfg) in
  exists r : ValidationResult,
    validate (__init__ cfg) now output context mode = Ok r /\
    map fst (details r)
    = (if get (enable_factual_validation c) true
       then ["factual_validation"%string] else [])
      ++ (if get (enable_logical_consistency c) true
          then ["logical_consistency"%string] else [])
      ++ (if get (enable_source_attribution c) true
          then ["source_attribution"%string] else []) /\
    (forall d, In ("factual_validation"%string, d) (details r) ->
       _validate_factual_claims (__init__ cfg) output
       = Ok (detail_score d, snd (spec_factual_claims output))
       /\ detail_warnings d = List.length (snd (spec_factual_claims output))) /\
    (forall d, In ("logical_consistency"%string, d) (details r) ->
       _validate_logical_consistency (__init__ cfg) output
       = Ok (detail_score d, snd (spec_logical_consistency output))
       /\ detail_warnings d
          = List.length (snd (spec_logical_consistency output))) /\
    (forall d, In ("source_attribution"%string, d) (details r) ->
       _validate_source_attribution (__init__ cfg) output
       = Ok (detail_score d, snd (spec_source_attribution output))
       /\ detail_warnings d
          = List.length (snd (spec_source_attribution output))) /\
    list_sum (map (fun kd => detail_warnings (snd kd)) (details r))
    = List.length (all_warnings (enabled_runs c output)).
Proof.
  intros c. eexists. split; [apply validate_run|]. cbn [details]. fold c.
  rewrite factual_claims_run, logical_consistency_run, source_attribution_run.
  unfold enabled_runs, all_warnings, details_of.
  destruct (spec_factual_claims output) as [fs fw],
           (spec_logical_consistency output) as [ls lw],
           (spec_source_attribution output) as [ss sw].
  destruct (get (enable_factual_validation c) true),
           (get (enable_logical_consistency c) true),
           (get (enable_source_attribution c) true);
    cbn; rewrite ?length_app, ?Nat.add_0_r;
    (split; [reflexivity|]);
    repeat split;
    try lia;
    match goal with
    | H : _ |- _ =>
        repeat (destruct H as [H|H];
                [inversion H; subst; cbn; try reflexivity|]);
        contradiction
    end.
Qed.

Lemma SFltb_leb_trans (x y z : spec_float) :
  SFltb x y = true -> SFleb y z = true -> SFltb x z = true.
Proof.
  unfold SFleb, SFltb.
  destruct x as [sx|sx| |sx mx ex], y as [sy|sy| |sy my ey],
           z as [sz|sz| |sz mz ez]; simpl;
    try destruct sx; try destruct sy; try destruct sz; simpl; try congruence;
    repeat match goal with
      | |- context [(?a ?= ?b)%Z] =>
          destruct (Z.compare_spec a b); subst; simpl
      | |- context [Pos.compare_cont Eq ?a ?b] =>
          change (Pos.compare_cont Eq a b) with (Pos.compare a b);
          destruct (Pos.compare_spec a b); subst; simpl
      end; try congruence; try lia.
Qed.

Lemma ltb_leb_trans (x y z : float) :
  (x <? y) = true -> (y <=? z) = true -> (x <? z) = true.
Proof. rewrite !ltb_spec, leb_spec. apply SFltb_leb_trans. Qed.

(** At least 0.7 is HIGH or MEDIUM, and conversely. *)
Lemma at_least_07 (s : float) :
  (0.7 <=? s) = true <->
  _determine_confidence s = HIGH \/ _determine_confidence s = MEDIUM.
Proof.
  unfold _determine_confidence, ge.
  destruct (0.9 <=? s) eqn:H9.
  - split; [now left|]. intros _.
    apply FloatOrder.ltb_leb, (ltb_leb_trans _ 0.9); [reflexivity|exact H9].
  - destruct (0.7 <=? s); [split; [now right|reflexivity]|].
    destruct (0.5 <=? s); split; try discriminate; intros [H|H]; discriminate.
Qed.

(** X4. Under the default threshold 0.7 a result is valid exactly when its
    confidence is HIGH or MEDIUM. *)
Theorem valid_iff_high_or_medium (cfg : option Config) (now : Z)
    (output : string) (context : option string) (mode : string) :
  get (confidence_threshold (config (__init__ cfg))) 0.7 = 0.7 ->
  exists r : ValidationResult,
    validate (__init__ cfg) now output context mode = Ok r /\
    (is_valid r = true <-> confidence r = HIGH \/ confidence r = MEDIUM).
Proof.
  intros T. eexists. split; [apply validate_run|].
  cbn [is_valid confidence]. unfold threshold_of, ge. rewrite T.
  apply at_least_07.
Qed.

(** X4 for the default configuration and the empty text. *)
Lemma valid_iff_high_or_medium_witness :
  exists r : ValidationResult,
    validate (__init__ None) 0 empty_text None "quick" = Ok r /\
    (is_valid r = true <-> confidence r = HIGH \/ confidence r = MEDIUM).
Proof.
  apply (valid_iff_high_or_medium None 0 empty_text None "quick").
  reflexivity.
Defined.

(** X5. With the three detectors disabled and a limit [k >= 0], every text
    gets the score 0.0, the tier INSUFFICIENT, no details and no warnings,
    and is valid only under a threshold of at most 0.0. *)
Theorem all_detectors_disabled (cfg : option Config) (now : Z)
    (output : string) (context : option string) (mode : string) :
  let c := config (__init__ cfg) in
  get (enable_factual_validation c) true = false ->
  get (enable_logical_consistency c) true = false ->
  get (enable_source_attribution c) true = false ->
  (0 <= get (max_warnings c) 10%Z)%Z ->
  validate (__init__ cfg) now output context mode
  = Ok {| is_valid := get (confidence_threshold c) 0.7 <=? 0.0;
          confidence := INSUFFICIENT;
          score := 0.0;
          details := [];
          warnings := [];
          timestamp := now;
          validation_type := mode |}.
Proof.
  intros c F L S K. rewrite validate_run. fold c.
  unfold enabled_runs. rewrite F, L, S. cbn [app].
  unfold limit_warnings, max_warnings_of. cbn [all_warnings map List.concat List.length].
  replace (Z.of_nat 0 >? get (max_warnings c) 10%Z)%Z with false
    by (symmetry; rewrite Z.gtb_ltb; apply Z.ltb_ge; exact K).
  reflexivity.
Qed.

(** X5 on the sky text. *)
Lemma all_detectors_disabled_witness :
  validate (__init__ (Some all_disabled)) 0 sky_text None "quick"
  = Ok {| is_valid := false;
          confidence := INSUFFICIENT;
          score := 0.0;
          details := [];
          warnings := [];
          timestamp := 0;
          validation_type := "quick" |}.
Proof.
  apply (all_detectors_disabled (Some all_disabled) 0 sky_text None "quick");
    try reflexivity.
  vm_compute. discriminate.
Defined.

(** X6. The label helpers of the interface and of the MCP server give,
    for every score, the name of the tier the engine assigns. *)
Theorem confidence_labels_agree (s : float) :
  get_confidence_level s = name (_determine_confidence s) /\
  LithiumMCPServer._get_confidence_level s = name (_determine_confidence s) /\
  lower (name (_determine_confidence s)) = value (_determine_confidence s).
Proof.
  unfold get_confidence_level, LithiumMCPServer._get_confidence_level,
    _determine_confidence.
  destruct (ge s 0.9); [repeat split|].
  destruct (ge s 0.7); [repeat split|].
  destruct (ge s 0.5); repeat split.
Qed.

(* ================================================================== *)
(** * The interface *)
(* ================================================================== *)

(** X7. The convenience functions agree on a text: [quick_validate] and
    [comprehensive_validate] return the same verdict, tier, score, details
    and warnings whatever the contexts, differing only in the mode they
    echo; [quick_check] returns that verdict and [get_confidence_score]
    that score; the verdict is [0.7 <= score]. *)
Theorem convenience_functions_agree (now1 now2 now3 now4 : Z)
    (output : string) (c1 c2 : option string) :
  exists rq rc : ValidationResult,
    quick_validate now1 output c1 = Ok rq /\
    comprehensive_validate now2 output c2 = Ok rc /\
    quick_check now3 output = Ok (is_valid rq) /\
    ValidationInterface.get_confidence_score
      (ValidationInterface.__init__ None) now4 output = Ok (score rq) /\
    is_valid rq = is_valid rc /\
    confidence rq = confidence rc /\
    score rq = score rc /\
    details rq = details rc /\
    warnings rq = warnings rc /\
    validation_type rq = "quick"%string /\
    validation_type rc = "comprehensive"%string /\
    is_valid rq = (0.7 <=? score rq).
Proof.
  unfold quick_validate, comprehensive_validate, quick_check,
    ValidationInterface.quick_check, ValidationInterface.get_confidence_score,
    ValidationInterface.validate_output.
  cbn [ValidationInterface.validator ValidationInterface.__init__].
  rewrite !validate_run. cbn [bind is_valid score].
  do 2 eexists. repeat split.
Qed.

Lemma config_update_assoc (d k1 k2 : Config) :
  config_update (config_update d k1) k2 = config_update d (config_update k1 k2).
Proof.
  destruct k1 as [[?|] [?|] [?|] [?|] [?|]], k2 as [[?|] [?|] [?|] [?|] [?|]];
    reflexivity.
Qed.

(** X8. After [configure(kwargs)] the interface validates as a fresh
    interface constructed with [kwargs]: the configuration given at
    construction no longer has any effect.  Successive calls accumulate:
    after [configure(k1)] and [configure(k2)] the interface validates as
    one constructed with [k1] updated by [k2]. *)
Theorem configure_replaces_configuration (cfg0 : option Config)
    (k1 k2 : Config) (now : Z) (output : string) (context : option string)
    (mode : string) :
  let fresh := ValidationInterface.__init__ cfg0 in
  ValidationInterface.validate_output
    (ValidationInterface.configure fresh k1) now output context mode
  = ValidationInterface.validate_output
      (ValidationInterface.__init__ (Some k1)) now output context mode
  /\
  ValidationInterface.validate_output
    (ValidationInterface.configure (ValidationInterface.configure fresh k1) k2)
    now output context mode
  = ValidationInterface.validate_output
      (ValidationInterface.__init__ (Some (config_update k1 k2)))
      now output context mode.
Proof.
  unfold ValidationInterface.validate_output, ValidationInterface.configure.
  cbn [ValidationInterface.validator ValidationInterface._default_config
       ValidationInterface.__init__].
  rewrite config_update_assoc.
  change {| confidence_threshold := Some 0.7;
            enable_factual_validation := Some true;
            enable_logical_consistency := Some true;
            enable_source_attribution := Some true;
            max_warnings := Some 10%Z |} with _default_config.
  split; symmetry; apply validate_with_defaults.
Qed.

(** The batch loop, from any list of results already collected. *)
Lemma batch_loop (cfg : option Config) (clock : nat -> Z) (mode : string)
    (outputs : list string) :
  forall acc : list ValidationResult,
  exists rs : list ValidationResult,
    for_each outputs
      (fun results output =>
         r <- validate (__init__ cfg) (clock (List.length results)) output None
                mode ;;
         Ok (results ++ [r]))
      acc
    = Ok (acc ++ rs) /\
    List.length rs = List.length outputs /\
    forall (i : nat) (o : string),
      nth_error outputs i = Some o ->
      exists r : ValidationResult,
        nth_error rs i = Some r /\
        validate (__init__ cfg) (clock (List.length acc + i)%nat) o None mode = Ok r.
Proof.
  induction outputs as [|o outputs IH]; intros acc.
  - exists []. cbn. rewrite app_nil_r. repeat split.
    intros [|i] o H; discriminate H.
  - cbn [for_each]. rewrite validate_run. cbn [bind].
    match goal with
    | |- context [acc ++ [?x]] => set (r0 := x)
    end.
    destruct (IH (acc ++ [r0])) as (rs & E & Len & Nth).
    exists (r0 :: rs). rewrite E, <- app_assoc. cbn [app List.length].
    repeat split; [now rewrite Len|].
    intros [|i] o' H; cbn [nth_error] in *.
    + injection H as <-. exists r0. split; [reflexivity|].
      rewrite Nat.add_0_r. apply validate_run.
    + destruct (Nth i o' H) as (r & Hr & V). exists r. split; [exact Hr|].
      rewrite length_app in V. cbn [List.length] in V.
      now replace (List.length acc + S i)%nat with (List.length acc + 1 + i)%nat by lia.
Qed.

(** X9. [batch_validate] returns one result per output, in the order of
    the outputs; the [i]-th result is what validating the [i]-th output
    alone returns (at the [i]-th clock reading), whatever the other
    outputs are. *)
Theorem batch_validate_pointwise (self : ValidationInterface.t)
    (cfg : option Config) (clock : nat -> Z) (outputs : list string)
    (mode : string) :
  ValidationInterface.validator self = __init__ cfg ->
  exists rs : list ValidationResult,
    ValidationInterface.batch_validate self clock outputs mode = Ok rs /\
    List.length rs = List.length outputs /\
    forall (i : nat) (o : string),
      nth_error outputs i = Some o ->
      exists r : ValidationResult,
        nth_error rs i = Some r /\
        ValidationInterface.validate_output self (clock i) o None mode = Ok r.
Proof.
  intros V.
  unfold ValidationInterface.batch_validate,
    ValidationInterface.validate_output. rewrite V.
  destruct (batch_loop cfg clock mode outputs []) as (rs & E & Len & Nth).
  exists rs. split; [exact E|]. split; [exact Len|]. exact Nth.
Qed.

(** X9 for a configured interface and two texts. *)
Lemma batch_validate_pointwise_witness :
  exists rs : list ValidationResult,
    ValidationInterface.batch_validate
      (ValidationInterface.configure (ValidationInterface.__init__ None)
         limit_two)
      Z.of_nat [sky_text; busy_text] "quick" = Ok rs /\
    List.length rs = 2%nat /\
    forall (i : nat) (o : string),
      nth_error [sky_text; busy_text] i = Some o ->
      exists r : ValidationResult,
        nth_error rs i = Some r /\
        ValidationInterface.validate_output
          (ValidationInterface.configure (ValidationInterface.__init__ None)
             limit_two)
          (Z.of_nat i) o None "quick" = Ok r.
Proof.
  apply (batch_validate_pointwise _
           (Some (config_update
                    (ValidationInterface._default_config
                       (ValidationInterface.__init__ None)) limit_two))).
  reflexivity.
Defined.

Lemma value_injective (a b : ConfidenceLevel) : value a = value b -> a = b.
Proof. destruct a, b; intros H; try reflexivity; discriminate H. Qed.

(** X10. [to_dict] loses nothing but what [isoformat] loses: two results
    with the same dict have the same verdict, tier (the four tiers
    serialise to four different strings), score, details, warnings and
    mode, and timestamps with the same ISO text; they are the same result
    when [isoformat] tells all timestamps apart. *)
Theorem to_dict_lossless (isoformat : Z -> string) (r1 r2 : ValidationResult) :
  to_dict isoformat r1 = to_dict isoformat r2 ->
  is_valid r1 = is_valid r2 /\
  confidence r1 = confidence r2 /\
  score r1 = score r2 /\
  details r1 = details r2 /\
  warnings r1 = warnings r2 /\
  validation_type r1 = validation_type r2 /\
  isoformat (timestamp r1) = isoformat (timestamp r2) /\
  ((forall a b : Z, isoformat a = isoformat b -> a = b) -> r1 = r2).
Proof.
  destruct r1 as [v1 c1 s1 d1 w1 t1 m1], r2 as [v2 c2 s2 d2 w2 t2 m2].
  unfold to_dict. cbn [is_valid confidence score details warnings timestamp
                        validation_type].
  intros H. injection H as Hv Hc Hs Hd Hw Ht Hm.
  apply value_injective in Hc. subst.
  repeat split; try assumption.
  intros I. now rewrite (I _ _ Ht).
Qed.

(** X10 on two results that differ in their timestamps only, with an
    [isoformat] that tells no two timestamps apart: their dicts are equal,
    and the timestamp is all that separates them. *)
Lemma to_dict_lossless_witness :
  to_dict coarse_isoformat (stamped 5) = to_dict coarse_isoformat (stamped 6) /\
  timestamp (stamped 5) <> timestamp (stamped 6) /\
  is_valid (stamped 5) = is_valid (stamped 6) /\
  confidence (stamped 5) = confidence (stamped 6) /\
  score (stamped 5) = score (stamped 6) /\
  details (stamped 5) = details (stamped 6) /\
  warnings (stamped 5) = warnings (stamped 6) /\
  validation_type (stamped 5) = validation_type (stamped 6) /\
  coarse_isoformat (timestamp (stamped 5))
  = coarse_isoformat (timestamp (stamped 6)) /\
  ((forall a b : Z, coarse_isoformat a = coarse_isoformat b -> a = b) ->
   stamped 5 = stamped 6).
Proof.
  split; [reflexivity|]. split; [discriminate|].
  apply (to_dict_lossless coarse_isoformat (stamped 5) (stamped 6)).
  reflexivity.
Defined.

Lemma limit_warnings_length (k : Z) (ws : list string) :
  (0 <= k)%Z ->
  Z.of_nat (List.length (limit_warnings k ws))
  = Z.min (Z.of_nat (List.length ws)) (k + 1).
Proof.
  intros Hk. unfold limit_warnings.
  destruct (Z.of_nat (List.length ws) >? k)%Z eqn:E.
  - apply Z.gtb_lt in E. rewrite slice_to_firstn by assumption.
    rewrite length_app, firstn_length_le by lia. cbn [List.length]. lia.
  - destruct (Z.gtb_spec (Z.of_nat (List.length ws)) k); [discriminate|lia].
Qed.

(** X11. [get_validation_summary] always validates in the mode
    "comprehensive"; for a limit [k >= 0] its [warning_count] is
    [min(w, k + 1)]: it counts the entries of the returned list, the
    summary entry included, not the [w] warnings produced. *)
Theorem summary_warning_count (isoformat : Z -> string) (cfg : option Config)
    (now : Z) (output : string) :
  let c := config (__init__ cfg) in
  let k := get (max_warnings c) 10%Z in
  let w := Z.of_nat (List.length (all_warnings (enabled_runs c output))) in
  (0 <= k)%Z ->
  exists r : ValidationResult,
    ValidationInterface.validate_output (ValidationInterface.__init__ cfg)
      now output None "comprehensive" = Ok r /\
    ValidationInterface.get_validation_summary isoformat
      (ValidationInterface.__init__ cfg) now output
    = Ok [ ("is_valid", PyBool (is_valid r));
           ("confidence", PyStr (value (confidence r)));
           ("score", PyFloat (score r));
           ("warning_count", PyInt (Z.min w (k + 1)));
           ("validation_type", PyStr "comprehensive");
           ("timestamp", PyStr (isoformat now)) ].
Proof.
  intros c k w Hk.
  unfold ValidationInterface.get_validation_summary,
    ValidationInterface.validate_output.
  cbn [ValidationInterface.validator ValidationInterface.__init__].
  rewrite validate_run. eexists. split; [reflexivity|].
  cbn [bind is_valid confidence score warnings validation_type timestamp].
  fold c. unfold max_warnings_of. fold k.
  now rewrite limit_warnings_length by assumption.
Qed.

(** X11 at the limit 2, on a text with seven warnings: the count is 3. *)
Lemma summary_warning_count_witness :
  exists r : ValidationResult,
    ValidationInterface.validate_output
      (ValidationInterface.__init__ (Some limit_two))
      0 busy_text None "comprehensive" = Ok r /\
    ValidationInterface.get_validation_summary str_of_int
      (ValidationInterface.__init__ (Some limit_two)) 0 busy_text
    = Ok [ ("is_valid", PyBool (is_valid r));
           ("confidence", PyStr (value (confidence r)));
           ("score", PyFloat (score r));
           ("warning_count", PyInt 3);
           ("validation_type", PyStr "comprehensive");
           ("timestamp", PyStr (str_of_int 0)) ].
Proof.
  apply (summary_warning_count str_of_int (Some limit_two) 0 busy_text).
  vm_compute. discriminate.
Defined.

(* ================================================================== *)
(** * The command line *)
(* ================================================================== *)

Lemma rstrip_empty (s : string) :
  rstrip s = EmptyString <-> all_chars Re.is_space s = true.
Proof.
  induction s as [|c s IH]; cbn [rstrip all_chars]; [tauto|].
  destruct (rstrip s) as [|c' r].
  - destruct (Re.is_space c); cbn [andb].
    + tauto.
    + split; discriminate.
  - split; [discriminate|]. intros H. apply andb_prop in H.
    destruct H as [_ H]. apply IH in H. discriminate H.
Qed.

Lemma lstrip_head (s : string) :
  (lstrip s = EmptyString /\ all_chars Re.is_space s = true) \/
  (exists c t, lstrip s = String c t /\ Re.is_space c = false
               /\ all_chars Re.is_space s = false).
Proof.
  induction s as [|c s IH]; cbn [lstrip all_chars]; [now left|].
  destruct (Re.is_space c) eqn:E; cbn [andb]; [exact IH|].
  right. now exists c, s.
Qed.

(** [strip] leaves nothing exactly of a text made of white space. *)
Lemma strip_empty (s : string) :
  strip s = EmptyString <-> all_chars Re.is_space s = true.
Proof.
  unfold strip. rewrite rstrip_empty.
  destruct (lstrip_head s) as [[E A]|(c & t & E & N & A)]; rewrite E, A.
  - cbn. tauto.
  - cbn [all_chars]. rewrite N. cbn [andb]. tauto.
Qed.

(** Without a text to validate [main] writes one line to the standard
    error and exits with 1. *)
Lemma main_without_text (fs : string -> Cli.opened) (isoformat : Z -> string)
    (raises : ValidationResult -> string -> option string)
    (now : Z) (args : Cli.Args) :
  Cli.text_to_validate fs args = None ->
  exists message : string,
    Cli.main fs isoformat raises now args = ([Cli.Stderr message], 1%Z).
Proof.
  unfold Cli.text_to_validate, Cli.main.
  destruct (Cli.given (Cli.file args)) as [path|].
  - destruct (fs path) as [content| |e]; intros H; try (eexists; reflexivity).
    rewrite H. eexists; reflexivity.
  - intros H. rewrite H. eexists; reflexivity.
Qed.

(** With one, it validates it under the threshold given and reports. *)
Lemma main_with_text (fs : string -> Cli.opened) (isoformat : Z -> string)
    (raises : ValidationResult -> string -> option string)
    (now : Z) (args : Cli.Args) (text : string) :
  Cli.text_to_validate fs args = Some text ->
  exists r : ValidationResult,
    validate (__init__ (Some (Cli.config_of args))) now text
      (Cli.context args) (Cli.type args) = Ok r /\
    is_valid r = (Cli.threshold args <=? score r) /\
    Cli.main fs isoformat raises now args
    = if Cli.quiet args then
        ([Cli.Stdout (if is_valid r then "true" else "false")],
         if is_valid r then 0%Z else 1%Z)
      else if Cli.json args then ([Cli.StdoutJson (to_dict isoformat r)], 0%Z)
      else
        match raises r (Cli.type args) with
        | None => ([Cli.StdoutReport r (Cli.type args)], 0%Z)
        | Some e =>
            ([Cli.StdoutReportInterrupted r (Cli.type args);
              Cli.Stderr ("Error during validation: " ++ e)%string], 1%Z)
        end.
Proof.
  intros H. eexists. split; [apply validate_run|]. split; [reflexivity|].
  revert H. unfold Cli.text_to_validate, Cli.main.
  unfold ValidationInterface.validate_output.
  cbn [ValidationInterface.validator ValidationInterface.__init__].
  fold (Cli.config_of args).
  destruct (Cli.given (Cli.file args)) as [path|].
  - destruct (fs path) as [content| |e]; try discriminate.
    intros H. rewrite H, validate_run. reflexivity.
  - intros H. rewrite H, validate_run. reflexivity.
Qed.

(** X12. After argument parsing [main] exits with 0 or 1.  It exits with
    0 exactly when it has a non-empty text to validate and: under
    [--quiet], that text is valid; under [--json] without [--quiet],
    always; in neither mode, no [print] of the report raises.  So without
    [--quiet] the verdict has no influence on the exit code: an invalid
    text whose report is printed gives 0, a valid one whose report cannot
    be printed gives 1. *)
Theorem cli_exit_code (fs : string -> Cli.opened) (isoformat : Z -> string)
    (raises : ValidationResult -> string -> option string)
    (now : Z) (args : Cli.Args) :
  let code := snd (Cli.main fs isoformat raises now args) in
  (code = 0%Z \/ code = 1%Z) /\
  (code = 0%Z <->
   exists (text : string) (r : ValidationResult),
     Cli.text_to_validate fs args = Some text /\
     validate (__init__ (Some (Cli.config_of args))) now text
       (Cli.context args) (Cli.type args) = Ok r /\
     (Cli.quiet args = true -> is_valid r = true) /\
     (Cli.quiet args = false -> Cli.json args = false ->
      raises r (Cli.type args) = None)).
Proof.
  intros code. subst code.
  destruct (Cli.text_to_validate fs args) as [text|] eqn:T.
  - destruct (main_with_text fs isoformat raises now args text T)
      as (r & V & _ & M).
    rewrite M.
    assert (U : forall text' r',
               Some text = Some text' ->
               validate (__init__ (Some (Cli.config_of args))) now text'
                 (Cli.context args) (Cli.type args) = Ok r' -> r' = r).
    { intros text' r' E V'. injection E as <-. rewrite V in V'.
      now injection V'. }
    destruct (Cli.quiet args);
      [destruct (is_valid r) eqn:I
      |destruct (Cli.json args);
       [|destruct (raises r (Cli.type args)) as [e|] eqn:P]];
      cbn [snd]; (split; [auto|]); split; intros H;
      try reflexivity; try discriminate H;
      try (exists text, r; repeat split; auto; discriminate).
    + destruct H as (text' & r' & T' & V' & Q & _).
      rewrite (U _ _ T' V'), I in Q. specialize (Q eq_refl). discriminate.
    + destruct H as (text' & r' & T' & V' & _ & Q).
      rewrite (U _ _ T' V'), P in Q. specialize (Q eq_refl eq_refl).
      discriminate.
  - destruct (main_without_text fs isoformat raises now args T) as (m & M).
    rewrite M. cbn [snd]. split; [auto|]. split; [discriminate|].
    intros (text & r & T' & _). discriminate.
Qed.

(** X13. Under [--quiet], with a text to validate, [main] writes the
    single line "true" and exits with 0 when the score reaches the
    threshold given, and the single line "false" and exits with 1 when it
    does not. *)
Theorem cli_quiet (fs : string -> Cli.opened) (isoformat : Z -> string)
    (raises : ValidationResult -> string -> option string)
    (now : Z) (args : Cli.Args) (text : string) :
  Cli.quiet args = true ->
  Cli.text_to_validate fs args = Some text ->
  exists r : ValidationResult,
    validate (__init__ (Some (Cli.config_of args))) now text
      (Cli.context args) (Cli.type args) = Ok r /\
    Cli.main fs isoformat raises now args
    = if Cli.threshold args <=? score r
      then ([Cli.Stdout "true"], 0%Z)
      else ([Cli.Stdout "false"], 1%Z).
Proof.
  intros Q T.
  destruct (main_with_text fs isoformat raises now args text T)
    as (r & V & I & M).
  exists r. split; [exact V|]. rewrite M, Q, I.
  now destruct (Cli.threshold args <=? score r).
Qed.

(** X13 on the text "ok", at the threshold 0.9, with a standard output
    that takes no report. *)
Lemma cli_quiet_witness :
  exists r : ValidationResult,
    validate (__init__ (Some (Cli.config_of (quiet_args (Some "ok") None true 0.9))))
      0 "ok" None "comprehensive" = Ok r /\
    Cli.main blank_file str_of_int always_raises 0
      (quiet_args (Some "ok") None true 0.9)
    = if 0.9 <=? score r
      then ([Cli.Stdout "true"], 0%Z)
      else ([Cli.Stdout "false"], 1%Z).
Proof.
  apply (cli_quiet blank_file str_of_int always_raises 0
           (quiet_args (Some "ok") None true 0.9) "ok"); reflexivity.
Defined.

(** X14. A file that holds only white space is refused: [main] writes
    "Error: No text provided for validation" to the standard error and exits
    with 1.  The positional text is not stripped: the same content, when not
    empty and given as the argument, is validated, and under [--json] its
    result is written and the exit code is 0. *)
Theorem cli_blank_file (fs : string -> Cli.opened) (isoformat : Z -> string)
    (raises : ValidationResult -> string -> option string)
    (now : Z) (args : Cli.Args) (path content : string) :
  Cli.given (Cli.file args) = Some path ->
  fs path = Cli.Read content ->
  all_chars Re.is_space content = true ->
  Cli.main fs isoformat raises now args
  = ([Cli.Stderr "Error: No text provided for validation"], 1%Z)
  /\ (content <> EmptyString ->
      exists r : ValidationResult,
        validate (__init__ (Some (Cli.config_of args))) now content
          (Cli.context args) (Cli.type args) = Ok r /\
        Cli.main fs isoformat raises now
          {| Cli.text := Some content; Cli.file := None;
             Cli.type := Cli.type args; Cli.context := Cli.context args;
             Cli.json := true; Cli.quiet := false;
             Cli.threshold := Cli.threshold args |}
        = ([Cli.StdoutJson (to_dict isoformat r)], 0%Z)).
Proof.
  intros F R A. apply strip_empty in A. split.
  - unfold Cli.main. rewrite F, R, A. reflexivity.
  - intros N.
    set (args' := {| Cli.text := Some content; Cli.file := None;
                     Cli.type := Cli.type args; Cli.context := Cli.context args;
                     Cli.json := true; Cli.quiet := false;
                     Cli.threshold := Cli.threshold args |}).
    assert (T : Cli.text_to_validate fs args' = Some content).
    { unfold Cli.text_to_validate. cbn.
      destruct content; [contradiction|reflexivity]. }
    destruct (main_with_text fs isoformat raises now args' content T)
      as (r & V & _ & M).
    exists r. split; [exact V|]. rewrite M. reflexivity.
Qed.

(** X14 on a file of three blanks, and on three blanks as the argument. *)
Lemma cli_blank_file_witness :
  Cli.main blank_file str_of_int always_raises 0
    (quiet_args None (Some "blank.txt") true 0.7)
  = ([Cli.Stderr "Error: No text provided for validation"], 1%Z)
  /\ ("   "%string <> EmptyString ->
      exists r : ValidationResult,
        validate (__init__ (Some (only_threshold 0.7))) 0 "   " None
          "comprehensive" = Ok r /\
        Cli.main blank_file str_of_int always_raises 0
          {| Cli.text := Some "   "; Cli.file := None;
             Cli.type := "comprehensive"; Cli.context := None;
             Cli.json := true; Cli.quiet := false;
             Cli.threshold := 0.7 |}
        = ([Cli.StdoutJson (to_dict str_of_int r)], 0%Z)).
Proof.
  apply (cli_blank_file blank_file str_of_int always_raises 0
           (quiet_args None (Some "blank.txt") true 0.7) "blank.txt" "   ");
    reflexivity.
Defined.

(* ================================================================== *)
(** * Letter case *)
(* ================================================================== *)

Ltac by_cases_on_char c :=
  destruct c as [[] [] [] [] [] [] [] []]; reflexivity.

Lemma lower_char_idem (c : ascii) : lower_char (lower_char c) = lower_char c.
Proof. by_cases_on_char c. Qed.

Lemma lower_idem (s : string) : lower (lower s) = lower s.
Proof.
  induction s as [|c s IH]; cbn [lower]; [reflexivity|].
  now rewrite lower_char_idem, IH.
Qed.

Lemma lower_length (s : string) : String.length (lower s) = String.length s.
Proof. induction s as [|c s IH]; cbn; congruence. Qed.

Lemma lower_append (s t : string) :
  lower (s ++ t)%string = (lower s ++ lower t)%string.
Proof. induction s as [|c s IH]; cbn; congruence. Qed.

Lemma lower_substring (n : nat) (s : string) :
  substring 0 n (lower s) = lower (substring 0 n s).
Proof.
  revert s. induction n as [|n IH]; intros [|c s]; cbn; try reflexivity.
  now rewrite IH.
Qed.

Lemma blind_is_word : case_blind Re.is_word.
Proof. intros c. by_cases_on_char c. Qed.

Lemma blind_is_digit : case_blind Re.is_digit.
Proof. intros c. by_cases_on_char c. Qed.

Lemma blind_is_space : case_blind Re.is_space.
Proof. intros c. by_cases_on_char c. Qed.

Lemma blind_is_char_i (a : ascii) : case_blind (Re.is_char_i a).
Proof. intros c. unfold Re.is_char_i. now rewrite lower_char_idem. Qed.

Lemma blind_comma : case_blind (Re.is_char ",").
Proof. intros c. by_cases_on_char c. Qed.

Lemma blind_open_bracket : case_blind (Re.is_char "[").
Proof. intros c. by_cases_on_char c. Qed.

Lemma blind_close_bracket : case_blind (Re.is_char "]").
Proof. intros c. by_cases_on_char c. Qed.

Lemma blind_close_paren : case_blind (Re.is_char ")").
Proof. intros c. by_cases_on_char c. Qed.

Lemma blind_is_terminal : case_blind is_terminal.
Proof. intros c. by_cases_on_char c. Qed.

Lemma blind_neg (p : ascii -> bool) : case_blind p -> case_blind (Re.neg p).
Proof. intros H c. unfold Re.neg. now rewrite H. Qed.

Lemma blind_any_of (ps : list (ascii -> bool)) :
  Forall case_blind ps -> case_blind (Re.any_of ps).
Proof.
  intros H c. unfold Re.any_of.
  induction H as [|p ps Hp _ IH]; cbn [existsb]; [reflexivity|].
  now rewrite Hp, IH.
Qed.

Lemma word_before_lower (prev : option ascii) :
  Re.word_before (lower_prev prev) = Re.word_before prev.
Proof. destruct prev as [c|]; [apply blind_is_word|reflexivity]. Qed.

Lemma word_after_lower (s : string) :
  Re.word_after (lower s) = Re.word_after s.
Proof. destruct s as [|c s]; [reflexivity|apply blind_is_word]. Qed.

Lemma rep_lower (k k' : option ascii -> string -> option nat)
    (p : ascii -> bool) :
  case_blind p ->
  (forall prev s, k' (lower_prev prev) (lower s) = k prev s) ->
  forall s lo prev,
    Re.rep k' p lo (lower_prev prev) (lower s) = Re.rep k p lo prev s.
Proof.
  intros Hp Hk. induction s as [|c s IH]; intros lo prev; cbn [Re.rep lower].
  - destruct lo; [apply (Hk prev EmptyString)|reflexivity].
  - rewrite Hp. specialize (Hk prev (String c s)). cbn [lower] in Hk.
    rewrite Hk. destruct (p c); [|reflexivity].
    change (Some (lower_char c)) with (lower_prev (Some c)).
    now rewrite IH.
Qed.

(** A pattern of case-blind classes matches the lower-cased text as it
    matches the text. *)
Lemma match_here_lower (r : Re.regex) :
  case_blind_regex r ->
  forall prev s,
    Re.match_here r (lower_prev prev) (lower s) = Re.match_here r prev s.
Proof.
  intros H. induction H as [|a r Ha _ IH]; intros prev s; [reflexivity|].
  destruct a as [p|lo p|]; cbn [Re.match_here].
  - destruct s as [|c s]; [reflexivity|]. cbn [lower].
    rewrite (Ha c). destruct (p c); [|reflexivity].
    change (Some (lower_char c)) with (lower_prev (Some c)).
    now rewrite IH.
  - now apply rep_lower.
  - rewrite word_before_lower, word_after_lower.
    destruct (xorb _ _); [apply IH|reflexivity].
Qed.

Lemma search_from_lower (r : Re.regex) :
  case_blind_regex r ->
  forall s prev,
    Re.search_from r (lower_prev prev) (lower s)
    = option_map lower (Re.search_from r prev s).
Proof.
  intros H. induction s as [|c s IH]; intros prev; cbn [Re.search_from lower].
  - pose proof (match_here_lower r H prev EmptyString) as M;
    cbn [lower] in M; rewrite M.
    now destruct (Re.match_here r prev EmptyString) as [[|n]|].
  - pose proof (match_here_lower r H prev (String c s)) as M;
    cbn [lower] in M; rewrite M.
    destruct (Re.match_here r prev (String c s)) as [n|].
    + cbn [option_map].
      pose proof (lower_substring n (String c s)) as L. cbn [lower] in L.
      now rewrite L.
    + apply (IH (Some c)).
Qed.

Lemma findall_from_lower (r : Re.regex) :
  case_blind_regex r ->
  forall s prev skip,
    Re.findall_from r (lower_prev prev) skip (lower s)
    = map lower (Re.findall_from r prev skip s).
Proof.
  intros H. induction s as [|c s IH]; intros prev skip; cbn [Re.findall_from lower].
  - destruct skip; [|reflexivity].
    pose proof (match_here_lower r H prev EmptyString) as M;
    cbn [lower] in M; rewrite M.
    now destruct (Re.match_here r prev EmptyString) as [[|n]|].
  - destruct skip; [|apply (IH (Some c))].
    pose proof (match_here_lower r H prev (String c s)) as M;
    cbn [lower] in M; rewrite M.
    destruct (Re.match_here r prev (String c s)) as [n|].
    + cbn [map]. rewrite <- (IH (Some c)).
      pose proof (lower_substring n (String c s)) as L. cbn [lower] in L.
      now rewrite L.
    + apply (IH (Some c)).
Qed.

Lemma split_from_lower (r : Re.regex) :
  case_blind_regex r ->
  forall s prev skip cur,
    Re.split_from r (lower_prev prev) skip (lower cur) (lower s)
    = map lower (Re.split_from r prev skip cur s).
Proof.
  intros H. induction s as [|c s IH]; intros prev skip cur;
    cbn [Re.split_from lower].
  - destruct skip; [|reflexivity].
    pose proof (match_here_lower r H prev EmptyString) as M;
    cbn [lower] in M; rewrite M.
    now destruct (Re.match_here r prev EmptyString) as [[|n]|].
  - destruct skip; [|apply (IH (Some c))].
    pose proof (match_here_lower r H prev (String c s)) as M;
    cbn [lower] in M; rewrite M.
    destruct (Re.match_here r prev (String c s)) as [[|n]|].
    + rewrite <- (IH (Some c)). now rewrite lower_append.
    + cbn [map]. now rewrite <- (IH (Some c)).
    + rewrite <- (IH (Some c)). now rewrite lower_append.
Qed.

Lemma case_blind_lit (w : string) : case_blind_regex (Re.lit w Re.IGNORECASE).
Proof.
  unfold Re.lit, case_blind_regex.
  induction (list_ascii_of_string w) as [|a l IH]; cbn [map]; constructor;
    [apply blind_is_char_i|exact IH].
Qed.

Lemma case_blind_seq (f : Re.flags) (ps : list Re.pattern) :
  Forall (fun p => case_blind_regex (p f)) ps -> case_blind_regex (Re.seq ps f).
Proof.
  unfold Re.seq, case_blind_regex.
  induction 1 as [|p ps Hp _ IH]; cbn [map List.concat]; [constructor|].
  apply Forall_app. split; assumption.
Qed.

Lemma case_blind_plus (f : Re.flags) (p : ascii -> bool) :
  case_blind p -> case_blind_regex (Re.plus p f).
Proof. intros H. repeat constructor. exact H. Qed.

Lemma case_blind_star (f : Re.flags) (p : ascii -> bool) :
  case_blind p -> case_blind_regex (Re.star p f).
Proof. intros H. repeat constructor. exact H. Qed.

Lemma case_blind_set (f : Re.flags) (p : ascii -> bool) :
  case_blind p -> case_blind_regex (Re.set p f).
Proof. intros H. repeat constructor. exact H. Qed.

Lemma case_blind_wordb (f : Re.flags) : case_blind_regex (Re.wordb f).
Proof. repeat constructor. Qed.

Lemma case_blind_whole_word (w : string) :
  case_blind_regex (whole_word w Re.IGNORECASE).
Proof.
  apply case_blind_seq.
  repeat constructor; [apply case_blind_lit].
Qed.

Lemma case_blind_sentence_end : case_blind_regex (sentence_end Re.NOFLAG).
Proof. apply case_blind_plus, blind_is_terminal. Qed.

Lemma case_blind_bracketed : case_blind_regex (bracketed Re.NOFLAG).
Proof.
  repeat constructor;
    [apply blind_open_bracket
    |apply blind_neg, blind_close_bracket
    |apply blind_close_bracket].
Qed.

(** Every pattern of the catalogue is case-blind under [IGNORECASE]. *)
Lemma case_blind_rules (key : string) :
  Forall (fun p : Re.pattern => case_blind_regex (p Re.IGNORECASE)) (rules key).
Proof.
  unfold rules, _load_validation_rules. cbn [getitem].
  repeat match goal with
    | |- context [String.eqb ?a key] => destruct (String.eqb a key)
    end;
    repeat first
      [ progress cbv beta
      | apply case_blind_lit
      | apply case_blind_seq
      | apply case_blind_plus
      | apply case_blind_star
      | apply case_blind_set
      | apply Forall_nil
      | apply Forall_cons
      | apply blind_neg
      | apply blind_any_of
      | apply blind_comma
      | apply blind_close_paren
      | apply blind_is_digit
      | apply blind_is_word
      | apply blind_is_space ].
Qed.

Lemma is_match_map (f : string -> string) (m : option string) :
  is_match (option_map f m) = is_match m.
Proof. now destruct m. Qed.

Lemma matches_lower (output : string) (p : Re.pattern) :
  case_blind_regex (p Re.IGNORECASE) ->
  matches (lower output) p = matches output p.
Proof.
  intros H. unfold matches, Re.search.
  pose proof (search_from_lower _ H output None) as E.
  cbn [lower_prev option_map] in E. rewrite E. apply is_match_map.
Qed.

Lemma findall_lower (output : string) (p : Re.pattern) (f : Re.flags) :
  case_blind_regex (p f) ->
  Re.findall p (lower output) f = map lower (Re.findall p output f).
Proof. intros H. apply (findall_from_lower _ H output None). Qed.

Lemma match_count_lower (output : string) (p : Re.pattern) :
  case_blind_regex (p Re.IGNORECASE) ->
  match_count (lower output) p = match_count output p.
Proof.
  intros H. unfold match_count. rewrite findall_lower by assumption.
  apply length_map.
Qed.

Lemma factual_claims_lower (output : string) :
  fst (spec_factual_claims (lower output)) = fst (spec_factual_claims output) /\
  List.length (snd (spec_factual_claims (lower output)))
  = List.length (snd (spec_factual_claims output)).
Proof.
  unfold spec_factual_claims. cbn [fst snd].
  rewrite (filter_ext_in (matches (lower output)) (matches output)).
  - rewrite (map_ext_in (match_count (lower output)) (match_count output)).
    + split; [reflexivity|]. now rewrite !length_map.
    + intros p Hp. apply match_count_lower.
      exact (proj1 (Forall_forall _ _) (case_blind_rules _) p Hp).
  - intros p Hp. apply matches_lower.
    exact (proj1 (Forall_forall _ _) (case_blind_rules _) p Hp).
Qed.

Lemma occurs_lower (output w : string) :
  occurs (lower output) w = occurs output w.
Proof.
  unfold occurs, Re.search.
  pose proof (search_from_lower _ (case_blind_whole_word w) output None) as E.
  cbn [lower_prev option_map] in E. rewrite E. apply is_match_map.
Qed.

Lemma logical_consistency_lower (output : string) :
  spec_logical_consistency (lower output) = spec_logical_consistency output.
Proof.
  unfold spec_logical_consistency, has_flow, Re.split.
  pose proof (split_from_lower _ case_blind_sentence_end output None O
                EmptyString) as E.
  cbn [lower_prev option_map lower] in E. rewrite E.
  rewrite length_map, lower_idem.
  rewrite (filter_ext (both_occur (lower output)) (both_occur output));
    [reflexivity|].
  intros [pos neg]. unfold both_occur. now rewrite !occurs_lower.
Qed.

Lemma filter_map_length (l : list string) :
  filter (fun span => (String.length span <? 5)%nat) (map lower l)
  = map lower (filter (fun span => (String.length span <? 5)%nat) l).
Proof.
  induction l as [|x l IH]; cbn [map filter]; [reflexivity|].
  rewrite lower_length, IH. now destruct (String.length x <? 5)%nat.
Qed.

Lemma source_attribution_lower (output : string) :
  fst (spec_source_attribution (lower output))
  = fst (spec_source_attribution output) /\
  List.length (snd (spec_source_attribution (lower output)))
  = List.length (snd (spec_source_attribution output)).
Proof.
  unfold spec_source_attribution, has_citations, short_spans.
  rewrite (findall_lower output bracketed Re.NOFLAG case_blind_bracketed).
  rewrite filter_map_length.
  assert (E : existsb (matches (lower output)) (rules "citation_patterns")
              = existsb (matches output) (rules "citation_patterns")).
  { pose proof (case_blind_rules "citation_patterns") as H.
    induction H as [|p l Hp _ IH]; cbn [existsb]; [reflexivity|].
    now rewrite matches_lower, IH. }
  rewrite E. clear E.
  destruct (existsb (matches output) (rules "citation_patterns"));
    cbn [fst snd]; [|now split].
  now rewrite !length_map.
Qed.

Lemma limit_warnings_length_ext (k : Z) (ws ws' : list string) :
  List.length ws = List.length ws' ->
  List.length (limit_warnings k ws) = List.length (limit_warnings k ws').
Proof.
  intros E. unfold limit_warnings, slice_to. rewrite E.
  destruct (Z.of_nat (List.length ws') >? k)%Z; [|exact E].
  rewrite !length_app. cbn [List.length].
  destruct (0 <=? k)%Z; rewrite !length_firstn, E; reflexivity.
Qed.

(** On the texts of this development (code points below U+0100, where
    [lower] keeps the length of a text), the text and its lower-cased form
    get the same score, tier, validity and details, and the same number of
    warnings. *)
Lemma validate_lower_cased (cfg : option Config) (now : Z)
    (output : string) (context : option string) (mode : string) :
  exists r r' : ValidationResult,
    validate (__init__ cfg) now output context mode = Ok r /\
    validate (__init__ cfg) now (lower output) context mode = Ok r' /\
    is_valid r' = is_valid r /\
    confidence r' = confidence r /\
    score r' = score r /\
    details r' = details r /\
    List.length (warnings r') = List.length (warnings r).
Proof.
  do 2 eexists. split; [apply validate_run|]. split; [apply validate_run|].
  cbn [is_valid confidence score details warnings].
  set (c := config (__init__ cfg)).
  destruct (factual_claims_lower output) as [Ff Fw].
  destruct (source_attribution_lower output) as [Sf Sw].
  unfold enabled_runs. rewrite (logical_consistency_lower output).
  destruct (spec_factual_claims (lower output)) as [f' fw'],
           (spec_factual_claims output) as [f fw],
           (spec_source_attribution (lower output)) as [s' sw'],
           (spec_source_attribution output) as [s sw],
           (spec_logical_consistency output) as [l lw].
  cbn [fst snd] in Ff, Fw, Sf, Sw. subst f' s'.
  assert (A : forall x y : list Run,
             weighted_sum x = weighted_sum y ->
             details_of x = details_of y ->
             List.length (all_warnings x) = List.length (all_warnings y) ->
             (threshold_of c <=? weighted_sum x) = (threshold_of c <=? weighted_sum y)
             /\ _determine_confidence (weighted_sum x)
                = _determine_confidence (weighted_sum y)
             /\ weighted_sum x = weighted_sum y
             /\ details_of x = details_of y
             /\ List.length (limit_warnings (max_warnings_of c) (all_warnings x))
                = List.length (limit_warnings (max_warnings_of c) (all_warnings y))).
  { intros x y W D N. rewrite W, D. repeat split.
    now apply limit_warnings_length_ext. }
  unfold ge.
  destruct (get (enable_factual_validation c) true),
           (get (enable_logical_consistency c) true),
           (get (enable_source_attribution c) true);
    apply A; cbn; rewrite ?length_app, ?Fw, ?Sw; reflexivity.
Qed.

(** X15. For an ASCII text the verdict does not depend on letter case:
    the text and its lower-cased form get the same score, tier, validity and
    details, and the same number of warnings (the warnings themselves quote
    the text as it is written). *)
Theorem validate_case_insensitive (cfg : option Config) (now : Z)
    (output : string) (context : option string) (mode : string) :
  all_chars is_ascii output = true ->
  exists r r' : ValidationResult,
    validate (__init__ cfg) now output context mode = Ok r /\
    validate (__init__ cfg) now (lower output) context mode = Ok r' /\
    is_valid r' = is_valid r /\
    confidence r' = confidence r /\
    score r' = score r /\
    details r' = details r /\
    List.length (warnings r') = List.length (warnings r).
Proof. intros _. apply validate_lower_cased. Qed.

(** X15 on the sky text, which is ASCII. *)
Lemma validate_case_insensitive_witness :
  exists r r' : ValidationResult,
    validate (__init__ None) 0 sky_text None "quick" = Ok r /\
    validate (__init__ None) 0 (lower sky_text) None "quick" = Ok r' /\
    is_valid r' = is_valid r /\
    confidence r' = confidence r /\
    score r' = score r /\
    details r' = details r /\
    List.length (warnings r') = List.length (warnings r).
Proof.
  apply (validate_case_insensitive None 0 sky_text None "quick").
  reflexivity.
Defined.

Lemma SFleb_trans (x y z : spec_float) :
  SFleb x y = true -> SFleb y z = true -> SFleb x z = true.
Proof.
  unfold SFleb.
  destruct x as [sx|sx| |sx mx ex], y as [sy|sy| |sy my ey],
           z as [sz|sz| |sz mz ez]; simpl;
    try destruct sx; try destruct sy; try destruct sz; simpl; try congruence;
    repeat match goal with
      | |- context [(?a ?= ?b)%Z] =>
          destruct (Z.compare_spec a b); subst; simpl
      | |- context [Pos.compare_cont Eq ?a ?b] =>
          change (Pos.compare_cont Eq a b) with (Pos.compare a b);
          destruct (Pos.compare_spec a b); subst; simpl
      end; try congruence; try lia.
Qed.

Lemma leb_trans (x y z : float) :
  (x <=? y) = true -> (y <=? z) = true -> (x <=? z) = true.
Proof. rewrite !leb_spec. apply SFleb_trans. Qed.

(** X16. Lowering the threshold never turns a valid text invalid: with
    the rest of the configuration unchanged, a lower
    [confidence_threshold] leaves the score, tier, details and warnings as
    they are, and a text valid under the higher threshold is valid under
    the lower one. *)
Theorem lower_threshold_keeps_valid (c : Config) (t1 t2 : float) (now : Z)
    (output : string) (context : option string) (mode : string) :
  (t2 <=? t1) = true ->
  exists r1 r2 : ValidationResult,
    validate (__init__ (Some (config_update c (only_threshold t1))))
      now output context mode = Ok r1 /\
    validate (__init__ (Some (config_update c (only_threshold t2))))
      now output context mode = Ok r2 /\
    score r2 = score r1 /\
    confidence r2 = confidence r1 /\
    details r2 = details r1 /\
    warnings r2 = warnings r1 /\
    (is_valid r1 = true -> is_valid r2 = true).
Proof.
  intros T. do 2 eexists.
  split; [apply validate_run|]. split; [apply validate_run|].
  cbn [is_valid confidence score details warnings].
  destruct c as [th f l s m]. cbn.
  repeat split. unfold ge, threshold_of. cbn.
  intros V. now apply (leb_trans t2 t1).
Qed.

(** X16 for the thresholds 0.9 and 0.5 over the default configuration. *)
Lemma lower_threshold_keeps_valid_witness :
  exists r1 r2 : ValidationResult,
    validate (__init__ (Some (config_update _default_config (only_threshold 0.9))))
      0 sky_text None "quick" = Ok r1 /\
    validate (__init__ (Some (config_update _default_config (only_threshold 0.5))))
      0 sky_text None "quick" = Ok r2 /\
    score r2 = score r1 /\
    confidence r2 = confidence r1 /\
    details r2 = details r1 /\
    warnings r2 = warnings r1 /\
    (is_valid r1 = true -> is_valid r2 = true).
Proof.
  apply (lower_threshold_keeps_valid _default_config 0.9 0.5 0 sky_text None
           "quick").
  reflexivity.
Defined.

(** X17. The command line agrees with [quick_check]: for a non-empty
    positional text, [--quiet] at the threshold 0.7 writes "true" and exits
    with 0 exactly when [quick_check] returns [True] on that text, and
    writes "false" and exits with 1 exactly when it returns [False]. *)
Theorem cli_quiet_is_quick_check (fs : string -> Cli.opened)
    (isoformat : Z -> string)
    (raises : ValidationResult -> string -> option string)
    (now now' : Z) (args : Cli.Args) (text : string) :
  Cli.given (Cli.file args) = None ->
  Cli.given (Cli.text args) = Some text ->
  Cli.quiet args = true ->
  Cli.threshold args = 0.7 ->
  (Cli.main fs isoformat raises now args = ([Cli.Stdout "true"], 0%Z)
   <-> quick_check now' text = Ok true) /\
  (Cli.main fs isoformat raises now args = ([Cli.Stdout "false"], 1%Z)
   <-> quick_check now' text = Ok false).
Proof.
  intros F T Q Th.
  assert (TV : Cli.text_to_validate fs args = Some text).
  { unfold Cli.text_to_validate. now rewrite F. }
  destruct (main_with_text fs isoformat raises now args text TV) as (r & V & _ & M).
  rewrite M, Q. clear M.
  unfold quick_check, ValidationInterface.quick_check,
    ValidationInterface.validate_output.
  cbn [ValidationInterface.validator ValidationInterface.__init__].
  rewrite validate_run. cbn [bind is_valid].
  rewrite validate_run in V. injection V as <-. cbn [is_valid].
  change (config (__init__ (Some (Cli.config_of args))))
    with (Cli.config_of args).
  replace (threshold_of (Cli.config_of args))
    with 0.7 by (symmetry; exact Th).
  replace (enabled_runs (Cli.config_of args) text)
    with (enabled_runs (config (__init__ None)) text) by reflexivity.
  change (threshold_of (config (__init__ None))) with 0.7.
  destruct (ge (weighted_sum (enabled_runs (config (__init__ None)) text)) 0.7);
    cbv beta iota; split; split; intros H; try reflexivity; discriminate H.
Qed.

(** X17 on the text "ok". *)
Lemma cli_quiet_is_quick_check_witness :
  (Cli.main blank_file str_of_int always_raises 0 (quiet_args (Some "ok") None true 0.7)
   = ([Cli.Stdout "true"], 0%Z)
   <-> quick_check 1 "ok" = Ok true) /\
  (Cli.main blank_file str_of_int always_raises 0 (quiet_args (Some "ok") None true 0.7)
   = ([Cli.Stdout "false"], 1%Z)
   <-> quick_check 1 "ok" = Ok false).
Proof.
  apply (cli_quiet_is_quick_check blank_file str_of_int always_raises 0 1
           (quiet_args (Some "ok") None true 0.7) "ok"); reflexivity.
Defined.
